(** * Verifiable-credential issuance and verification

    A shallow embedding of the credential service
    (services/credential-issuer.ts), the signature helpers
    (utils/crypto.ts), the issuer registry (config/bank-issuers.ts) and
    the KYC store (mocks/kyc-database.ts), together with the parts of the
    JavaScript runtime they lean on: [JSON.stringify] with an array
    replacer, [Buffer.from(_, 'hex')], [Array.prototype.sort] on strings
    and the [||] default idiom.

    Conventions.
    - Strings are [string]; a [Buffer] is a [list byte].
    - A [Date] is its time value in milliseconds ([Z]); an invalid date
      is [None].  The process time zone is taken to be UTC, so that
      [setDate(getDate() + n)] adds [n] whole days of 86400000 ms.
    - A JavaScript [number] is modelled by an integer.
    - A call that may throw returns a [result]; [Throw m] carries the
      message of the [Error].
    - The hash, signature and date-format primitives (node:crypto,
      @noble/ed25519, @noble/secp256k1, [Date]) are not part of the
      repository; they are the fields of a [Runtime]. *)

From Stdlib Require Import ZArith List String Ascii Strings.Byte Lia DecimalString.
From stdpp Require Import base option list strings gmap sorting.

Local Open Scope string_scope.
Local Open Scope list_scope.
Local Open Scope Z_scope.

(** ** Calls that may throw *)

Inductive result (A : Type) : Type :=
| Ok (a : A)
| Throw (message : string).
Arguments Ok {A} a.
Arguments Throw {A} message.

Definition bind {A B} (r : result A) (k : A -> result B) : result B :=
  match r with
  | Ok a => k a
  | Throw m => Throw m
  end.

(** [try { return e } catch (error) { return false }] *)
Definition catchFalse (r : result bool) : bool :=
  match r with
  | Ok b => b
  | Throw _ => false
  end.

(** ** Strings *)

Definition dquote : ascii := "034"%char.
Definition backslash : ascii := "092"%char.

Fixpoint joinWith (sep : string) (parts : list string) : string :=
  match parts with
  | [] => ""
  | [p] => p
  | p :: rest => p +:+ sep +:+ joinWith sep rest
  end.

(** [Number.prototype.toString] on an integer value. *)
Definition numberToString (n : Z) : string :=
  NilZero.string_of_int (Z.to_int n).

(** [s.split(sep).pop()]: the text after the last separator. *)
Fixpoint lastSegmentFrom (sep : ascii) (acc s : string) : string :=
  match s with
  | EmptyString => acc
  | String c rest =>
      if Ascii.eqb c sep then lastSegmentFrom sep "" rest
      else lastSegmentFrom sep (acc +:+ String c "") rest
  end.

Definition lastSegment (sep : ascii) (s : string) : string :=
  lastSegmentFrom sep "" s.

(** [a || b] on numbers: zero is falsy. *)
Definition orNumber (a : option Z) (b : Z) : Z :=
  match a with
  | Some n => if n =? 0 then b else n
  | None => b
  end.

(** [a || b] on strings: the empty string is falsy. *)
Definition orElse (a : option string) (b : string) : string :=
  match a with
  | Some s => if String.eqb s "" then b else s
  | None => b
  end.

(** ** Buffers and hex *)

#[global] Instance byte_eq_decision : EqDecision byte := Byte.byte_eq_dec.

Definition hexDigit (n : N) : ascii :=
  ascii_of_N (if (n <? 10)%N then 48 + n else 87 + n)%N.

Definition hexOfByte (b : byte) : string :=
  let n := Byte.to_N b in
  String (hexDigit (n / 16)%N) (String (hexDigit (n mod 16)%N) "").

(** [Buffer.from(bytes).toString('hex')] *)
Fixpoint toHex (bs : list byte) : string :=
  match bs with
  | [] => ""
  | b :: rest => hexOfByte b +:+ toHex rest
  end.

Definition unhex (c : ascii) : option N :=
  let n := N_of_ascii c in
  if ((48 <=? n) && (n <=? 57))%N then Some (n - 48)%N
  else if ((97 <=? n) && (n <=? 102))%N then Some (n - 87)%N
  else if ((65 <=? n) && (n <=? 70))%N then Some (n - 55)%N
  else None.

Definition byteOfNibbles (hi lo : N) : byte :=
  default "000"%byte (Byte.of_N (16 * hi + lo)%N).

(** [Buffer.from(s, 'hex')]: decodes pairs of hex digits and stops,
    without an error, at the first pair that is not two hex digits or
    at a trailing single character. *)
Fixpoint fromHex (s : string) : list byte :=
  match s with
  | String a (String b rest) =>
      match unhex a, unhex b with
      | Some hi, Some lo => byteOfNibbles hi lo :: fromHex rest
      | _, _ => []
      end
  | _ => []
  end.

(** [s.slice(1)] *)
Definition slice1 (s : string) : string :=
  match s with
  | EmptyString => ""
  | String _ rest => rest
  end.

(** ** JSON values and [JSON.stringify] with a property list *)

Unset Elimination Schemes.
Inductive JSON : Type :=
| JNull
| JBool (b : bool)
| JNum (n : Z)
| JStr (s : string)
| JArr (items : list JSON)
| JObj (fields : list (string * JSON)).
Set Elimination Schemes.

(** [Get(holder, key)] on the own properties of an object. *)
Fixpoint getProp {A} (key : string) (fields : list (string * A)) : option A :=
  match fields with
  | [] => None
  | (k, v) :: rest => if String.eqb k key then Some v else getProp key rest
  end.

(** [Object.keys] *)
Definition objectKeys {A} (fields : list (string * A)) : list string :=
  map fst fields.

Definition escapeChar (c : ascii) : string :=
  let n := N_of_ascii c in
  if (n =? 34)%N then String backslash (String dquote "")
  else if (n =? 92)%N then String backslash (String backslash "")
  else if (n =? 8)%N then String backslash "b"
  else if (n =? 9)%N then String backslash "t"
  else if (n =? 10)%N then String backslash "n"
  else if (n =? 12)%N then String backslash "f"
  else if (n =? 13)%N then String backslash "r"
  else if (n <? 32)%N then
    String backslash ("u00" +:+ String (hexDigit (n / 16)%N) (String (hexDigit (n mod 16)%N) ""))
  else String c "".

Fixpoint escapeString (s : string) : string :=
  match s with
  | EmptyString => ""
  | String c rest => escapeChar c +:+ escapeString rest
  end.

Definition QuoteJSONString (s : string) : string :=
  String dquote (escapeString s +:+ String dquote "").

(** The members of an object under a property list [K]: for each name
    of [K], in the order of [K], the property of that name when the
    object has it. *)
Definition members (K : list string) (rendered : list (string * string)) : list string :=
  omap (fun k => (fun s => QuoteJSONString k +:+ ":" +:+ s) <$> getProp k rendered) K.

(** [SerializeJSONProperty] with [state.PropertyList = K] and no gap.
    The property list applies to every object, at every depth. *)
Fixpoint SerializeJSONProperty (K : list string) (v : JSON) : string :=
  match v with
  | JNull => "null"
  | JBool true => "true"
  | JBool false => "false"
  | JNum n => numberToString n
  | JStr s => QuoteJSONString s
  | JArr items =>
      "[" +:+ joinWith "," (map (SerializeJSONProperty K) items) +:+ "]"
  | JObj fields =>
      let rendered :=
        (fix each (fs : list (string * JSON)) : list (string * string) :=
           match fs with
           | [] => []
           | (k, x) :: rest => (k, SerializeJSONProperty K x) :: each rest
           end) fields in
      "{" +:+ joinWith "," (members K rendered) +:+ "}"
  end.

Definition renderFields (K : list string) (fields : list (string * JSON))
  : list (string * string) :=
  map (fun kv => (kv.1, SerializeJSONProperty K kv.2)) fields.

(** [Array.prototype.sort()] on distinct strings: ascending code units. *)
Definition sortStrings (l : list string) : list string :=
  merge_sort String.le l.

(** [JSON.stringify(o, Object.keys(o).sort())], the canonical form used
    by [issueCredential] and [verifyCredential]. *)
Definition canonicalize (fields : list (string * JSON)) : string :=
  SerializeJSONProperty (sortStrings (objectKeys fields)) (JObj fields).

(** ** Data model (types/credentials.ts)

    String-literal unions (['passed' | 'failed' | 'pending'],
    [SignatureAlgorithm], ...) are strings, as they are when the code
    runs; optional properties are options.  Field prefixes name the
    interface: [bi_] BankIssuer, [kyc_] CustomerKYCData, [req_]
    IssueCredentialRequest, [doc_] DIDDocument, [pii_] HashedPII, [cl_]
    KYCClaims, [amt_] AmountVerification, [cs_] CredentialSubject, [st_]
    CredentialStatus, [pf_] Proof, [vc_] VerifiableCredential. *)

Record BankIssuer : Type := {
  bi_did : string;
  bi_name : string;
  bi_jurisdiction : list string;
  bi_regulators : list string;
  bi_tier : Z;
  bi_privateKey : string;
  bi_publicKey : string;
  bi_signatureAlgorithm : string
}.

Record CustomerKYCData : Type := {
  kyc_kycId : string;
  kyc_name : string;
  kyc_dateOfBirth : string;
  kyc_citizenship : string;
  kyc_address : string;
  kyc_kycLevel : string;
  kyc_amlScreening : string;
  kyc_sanctionsCheck : string;
  kyc_pepScreening : string;
  kyc_sourceOfFunds : string;
  kyc_accreditedInvestor : bool;
  kyc_entityType : string;
  kyc_verifiedAmount : Z;
  kyc_currency : string;
  kyc_tier : Z;
  kyc_jurisdictions : list string;
  kyc_userDid : option string
}.

Record IssueCredentialRequest : Type := {
  req_customerKycId : string;
  req_issuerDid : string;
  req_kycLevel : string;
  req_accreditedInvestor : bool;
  req_jurisdiction : list string;
  req_expiryDays : option Z;
  req_signatureAlgorithm : option string
}.

Record DIDDocument : Type := {
  doc_id : string;
  doc_name : string;
  doc_jurisdiction : option (list string);
  doc_regulators : option (list string);
  doc_tier : option Z
}.

Record HashedPII : Type := {
  pii_name : string;
  pii_dateOfBirth : string;
  pii_citizenship : string;
  pii_address : string
}.

Record KYCClaims : Type := {
  cl_kycLevel : string;
  cl_amlScreening : string;
  cl_sanctionsCheck : string;
  cl_pepScreening : string;
  cl_sourceOfFunds : string;
  cl_accreditedInvestor : bool;
  cl_entityType : string
}.

Record AmountVerification : Type := {
  amt_value : Z;
  amt_currency : string
}.

Record CredentialSubject : Type := {
  cs_id : string;
  cs_hashedPII : HashedPII;
  cs_claims : KYCClaims;
  cs_amountVerifiedFor : AmountVerification;
  cs_tier : Z;
  cs_jurisdictions : list string
}.

Record CredentialStatus : Type := {
  st_id : string;
  st_type : string;
  st_registryContract : option string;
  st_tokenId : option string
}.

Record Proof : Type := {
  pf_type : string;
  pf_created : string;
  pf_verificationMethod : string;
  pf_proofPurpose : string;
  pf_proofValue : string
}.

(** The credential without its proof: [unsignedCredential] in
    [issueCredential], [credentialWithoutProof] in [verifyCredential]. *)
Record CredentialBody : Type := {
  vc_context : list string;
  vc_id : string;
  vc_type : list string;
  vc_issuer : DIDDocument;
  vc_issuanceDate : string;
  vc_expirationDate : string;
  vc_credentialSubject : CredentialSubject;
  vc_decommissionedAt : option string;
  vc_credentialStatus : CredentialStatus
}.

(** [{ ...unsignedCredential, proof }] *)
Record VerifiableCredential : Type := {
  vc_body : CredentialBody;
  vc_proof : Proof
}.

Record VerificationResult : Type := {
  valid : bool;
  errors : list string
}.

Record BatchResult : Type := {
  successful : list VerifiableCredential;
  failed : list (IssueCredentialRequest * string)
}.

(** ** The credential as a JavaScript object

    Properties are listed in the order [issueCredential] creates them;
    an absent optional property is left out. *)

Definition jsonOfStrings (l : list string) : JSON := JArr (map JStr l).

Definition optional {A} (key : string) (f : A -> JSON) (o : option A)
  : list (string * JSON) :=
  match o with
  | Some a => [(key, f a)]
  | None => []
  end.

Definition jsonOfDIDDocument (d : DIDDocument) : JSON :=
  JObj ([("id", JStr (doc_id d)); ("name", JStr (doc_name d))]
        ++ optional "jurisdiction" jsonOfStrings (doc_jurisdiction d)
        ++ optional "regulators" jsonOfStrings (doc_regulators d)
        ++ optional "tier" JNum (doc_tier d)).

Definition jsonOfHashedPII (h : HashedPII) : JSON :=
  JObj [("name", JStr (pii_name h));
        ("dateOfBirth", JStr (pii_dateOfBirth h));
        ("citizenship", JStr (pii_citizenship h));
        ("address", JStr (pii_address h))].

Definition jsonOfKYCClaims (c : KYCClaims) : JSON :=
  JObj [("kycLevel", JStr (cl_kycLevel c));
        ("amlScreening", JStr (cl_amlScreening c));
        ("sanctionsCheck", JStr (cl_sanctionsCheck c));
        ("pepScreening", JStr (cl_pepScreening c));
        ("sourceOfFunds", JStr (cl_sourceOfFunds c));
        ("accreditedInvestor", JBool (cl_accreditedInvestor c));
        ("entityType", JStr (cl_entityType c))].

Definition jsonOfAmountVerification (a : AmountVerification) : JSON :=
  JObj [("value", JNum (amt_value a)); ("currency", JStr (amt_currency a))].

Definition jsonOfCredentialSubject (s : CredentialSubject) : JSON :=
  JObj [("id", JStr (cs_id s));
        ("hashedPII", jsonOfHashedPII (cs_hashedPII s));
        ("claims", jsonOfKYCClaims (cs_claims s));
        ("amountVerifiedFor", jsonOfAmountVerification (cs_amountVerifiedFor s));
        ("tier", JNum (cs_tier s));
        ("jurisdictions", jsonOfStrings (cs_jurisdictions s))].

Definition jsonOfCredentialStatus (s : CredentialStatus) : JSON :=
  JObj ([("id", JStr (st_id s)); ("type", JStr (st_type s))]
        ++ optional "registryContract" JStr (st_registryContract s)
        ++ optional "tokenId" JStr (st_tokenId s)).

Definition jsonOfNullable (o : option string) : JSON :=
  match o with
  | Some s => JStr s
  | None => JNull
  end.

Definition bodyFields (b : CredentialBody) : list (string * JSON) :=
  [("@context", jsonOfStrings (vc_context b));
   ("id", JStr (vc_id b));
   ("type", jsonOfStrings (vc_type b));
   ("issuer", jsonOfDIDDocument (vc_issuer b));
   ("issuanceDate", JStr (vc_issuanceDate b));
   ("expirationDate", JStr (vc_expirationDate b));
   ("credentialSubject", jsonOfCredentialSubject (vc_credentialSubject b));
   ("decommissionedAt", jsonOfNullable (vc_decommissionedAt b));
   ("credentialStatus", jsonOfCredentialStatus (vc_credentialStatus b))].

(** [canonicalData] of both [issueCredential] and [verifyCredential]. *)
Definition canonicalData (b : CredentialBody) : string :=
  canonicalize (bodyFields b).

(** ** Runtime primitives

    [sha256Hex d] is [createHash('sha256').update(d).digest('hex')];
    [ed25519_sign m k] and [ed25519_verify s m p] are the @noble/ed25519
    calls on buffers; [secp256k1_sign h k] is
    [secp256k1.sign(h, k).toCompactHex()] and [secp256k1_verify s h p] is
    [secp256k1.verify(Signature.fromCompact(s), h, p)]; [toISOString t]
    is [Date.prototype.toISOString] at the valid time value [t];
    [dateParse s] is the time value of [new Date(s)], [None] for an
    invalid date. *)

Record Runtime : Type := {
  sha256Hex : string -> string;
  ed25519_sign : list byte -> list byte -> result (list byte);
  ed25519_verify : list byte -> list byte -> list byte -> result bool;
  secp256k1_sign : string -> list byte -> result string;
  secp256k1_verify : string -> string -> list byte -> result bool;
  toISOString : Z -> string;
  dateParse : string -> option Z
}.

(** What one call of [issueCredential] reads from its surroundings:
    [Date.now()] inside [generateCredentialId], [new Date()] for the
    issuance date, and [Math.floor(Math.random() * 100000)]. *)
Record Readings : Type := {
  rd_dateNow : Z;
  rd_now : Z;
  rd_random : Z
}.

Definition msPerDay : Z := 86400000.
Definition maxTimeValue : Z := 8640000000000000.

(** [TimeClip] *)
Definition timeClip (t : Z) : option Z :=
  if Z.abs t <=? maxTimeValue then Some t else None.

(** [d.toISOString()], a [RangeError] on an invalid date. *)
Definition dateToISOString (rt : Runtime) (d : option Z) : result string :=
  match d with
  | Some t => Ok (toISOString rt t)
  | None => Throw "Invalid time value"
  end.

(** [now > expirationDate] on dates; false when the right side is invalid. *)
Definition laterThan (now : Z) (d : option Z) : bool :=
  match d with
  | Some t => t <? now
  | None => false
  end.

(** ** utils/crypto.ts *)

Section Crypto.
Variable rt : Runtime.

Definition sha256Hash (data : string) : string := sha256Hex rt data.

(** [salt ? `${value}:${salt}` : value] *)
Definition hashPII (value : string) (salt : option string) : string :=
  let dataToHash :=
    match salt with
    | Some s => if String.eqb s "" then value else value +:+ ":" +:+ s
    | None => value
    end in
  "0x" +:+ sha256Hash dataToHash.

Definition signWithEd25519 (data privateKeyHex : string) : result string :=
  let privateKey := fromHex privateKeyHex in
  let messageHash := fromHex (sha256Hash data) in
  bind (ed25519_sign rt messageHash privateKey)
       (fun signature => Ok ("z" +:+ toHex signature)).

Definition signWithSecp256k1 (data privateKeyHex : string) : result string :=
  let privateKey := fromHex privateKeyHex in
  let messageHash := sha256Hash data in
  bind (secp256k1_sign rt messageHash privateKey)
       (fun compactHex => Ok ("z" +:+ compactHex)).

Definition signCredential (credentialData privateKey algorithm : string)
  : result string :=
  if String.eqb algorithm "Ed25519" then
    signWithEd25519 credentialData privateKey
  else if String.eqb algorithm "secp256k1" then
    signWithSecp256k1 credentialData privateKey
  else Throw ("Unsupported signature algorithm: " +:+ algorithm).

Definition verifyEd25519 (data signatureWithPrefix publicKeyHex : string) : bool :=
  catchFalse
    (let signature := fromHex (slice1 signatureWithPrefix) in
     let publicKey := fromHex publicKeyHex in
     let messageHash := fromHex (sha256Hash data) in
     ed25519_verify rt signature messageHash publicKey).

Definition verifySecp256k1 (data signatureWithPrefix publicKeyHex : string) : bool :=
  catchFalse
    (let signatureHex := slice1 signatureWithPrefix in
     let publicKey := fromHex publicKeyHex in
     let messageHash := sha256Hash data in
     secp256k1_verify rt signatureHex messageHash publicKey).

Definition verifySignature (credentialData signature publicKey algorithm : string)
  : result bool :=
  if String.eqb algorithm "Ed25519" then
    Ok (verifyEd25519 credentialData signature publicKey)
  else if String.eqb algorithm "secp256k1" then
    Ok (verifySecp256k1 credentialData signature publicKey)
  else Throw ("Unsupported signature algorithm: " +:+ algorithm).

(** [dateNow] is the value of [Date.now()]. *)
Definition generateCredentialId (dateNow : Z) (issuerDid subjectId : string) : string :=
  let combined := issuerDid +:+ ":" +:+ subjectId +:+ ":" +:+ numberToString dateNow in
  let hash := sha256Hash combined in
  "did:did3:credential:" +:+ String.substring 0 16 hash.

Definition generateStatusUrl (credentialId : string) : string :=
  let hash := orElse (Some (lastSegment ":" credentialId)) "" in
  "https://did3.org/credentials/status/" +:+ hash.

End Crypto.

(** ** config/bank-issuers.ts and mocks/kyc-database.ts

    [ISSUER_REGISTRY] and [kycDatabase] are [Map]s keyed by DID and by
    KYC id. *)

Definition getIssuerByDid (registry : gmap string BankIssuer) (did : string)
  : option BankIssuer :=
  registry !! did.

Definition getCustomerKYC (kycDatabase : gmap string CustomerKYCData) (kycId : string)
  : option CustomerKYCData :=
  kycDatabase !! kycId.

(** ** services/credential-issuer.ts *)

Definition contextUrls : list string :=
  ["https://www.w3.org/2018/credentials/v1";
   "https://did3.org/contexts/credentials/v1"].

Definition credentialTypes : list string :=
  ["VerifiableCredential"; "KYCCredential"].

Definition mockContract : string :=
  "0x" +:+ "0000000000000000000000000000000000000000".

Section Service.
Variable rt : Runtime.
Variable registry : gmap string BankIssuer.
Variable kycDatabase : gmap string CustomerKYCData.

Definition issueCredential (rd : Readings) (request : IssueCredentialRequest)
  : result VerifiableCredential :=
  (* 1. Validate the issuer *)
  match getIssuerByDid registry (req_issuerDid request) with
  | None => Throw ("Invalid issuer DID: " +:+ req_issuerDid request)
  | Some issuer =>
  (* 2. Retrieve customer KYC data *)
  match getCustomerKYC kycDatabase (req_customerKycId request) with
  | None => Throw ("Customer not found: " +:+ req_customerKycId request)
  | Some kycData =>
  (* 3. All checks must pass *)
  if negb (String.eqb (kyc_amlScreening kycData) "passed")
     || negb (String.eqb (kyc_sanctionsCheck kycData) "passed")
     || negb (String.eqb (kyc_pepScreening kycData) "passed") then
    Throw "Customer has not passed all required KYC checks"
  (* 4. Request parameters against KYC data *)
  else if negb (String.eqb (req_kycLevel request) (kyc_kycLevel kycData)) then
    Throw ("KYC level mismatch: requested " +:+ req_kycLevel request
           +:+ ", customer has " +:+ kyc_kycLevel kycData)
  else if negb (Bool.eqb (req_accreditedInvestor request)
                         (kyc_accreditedInvestor kycData)) then
    Throw "Accredited investor status mismatch"
  else
    (* 5. Credential ID and dates *)
    let subjectDid :=
      orElse (kyc_userDid kycData) ("did:did3:user:" +:+ req_customerKycId request) in
    let credentialId := generateCredentialId rt (rd_dateNow rd) (bi_did issuer) subjectDid in
    let issuanceDate := rd_now rd in
    let expiryDays := orNumber (req_expiryDays request) 365 in
    let expirationDate := timeClip (issuanceDate + expiryDays * msPerDay) in
    (* 6. Hash PII *)
    let hashedPII :=
      {| pii_name := hashPII rt (kyc_name kycData) None;
         pii_dateOfBirth := hashPII rt (kyc_dateOfBirth kycData) None;
         pii_citizenship := hashPII rt (kyc_citizenship kycData) None;
         pii_address := hashPII rt (kyc_address kycData) None |} in
    (* 7. Credential subject *)
    let credentialSubject :=
      {| cs_id := subjectDid;
         cs_hashedPII := hashedPII;
         cs_claims :=
           {| cl_kycLevel := kyc_kycLevel kycData;
              cl_amlScreening := kyc_amlScreening kycData;
              cl_sanctionsCheck := kyc_sanctionsCheck kycData;
              cl_pepScreening := kyc_pepScreening kycData;
              cl_sourceOfFunds := kyc_sourceOfFunds kycData;
              cl_accreditedInvestor := kyc_accreditedInvestor kycData;
              cl_entityType := kyc_entityType kycData |};
         cs_amountVerifiedFor :=
           {| amt_value := kyc_verifiedAmount kycData;
              amt_currency := kyc_currency kycData |};
         cs_tier := kyc_tier kycData;
         cs_jurisdictions := req_jurisdiction request |} in
    (* 8. Unsigned credential *)
    bind (dateToISOString rt expirationDate) (fun expirationISO =>
    let unsignedCredential :=
      {| vc_context := contextUrls;
         vc_id := credentialId;
         vc_type := credentialTypes;
         vc_issuer :=
           {| doc_id := bi_did issuer;
              doc_name := bi_name issuer;
              doc_jurisdiction := Some (bi_jurisdiction issuer);
              doc_regulators := Some (bi_regulators issuer);
              doc_tier := Some (bi_tier issuer) |};
         vc_issuanceDate := toISOString rt issuanceDate;
         vc_expirationDate := expirationISO;
         vc_credentialSubject := credentialSubject;
         vc_decommissionedAt := None;
         vc_credentialStatus :=
           {| st_id := generateStatusUrl credentialId;
              st_type := "DID3RevocationRegistry";
              st_registryContract := Some mockContract;
              st_tokenId := Some (numberToString (rd_random rd)) |} |} in
    (* 9. Canonical representation for signing *)
    let canonical := canonicalData unsignedCredential in
    (* 10. Sign *)
    let signatureAlgorithm :=
      orElse (req_signatureAlgorithm request) (bi_signatureAlgorithm issuer) in
    bind (signCredential rt canonical (bi_privateKey issuer) signatureAlgorithm)
         (fun proofValue =>
    (* 11. Proof *)
    let proofType :=
      if String.eqb signatureAlgorithm "Ed25519" then "Ed25519Signature2020"
      else "EcdsaSecp256k1Signature2019" in
    let proof :=
      {| pf_type := proofType;
         pf_created := toISOString rt issuanceDate;
         pf_verificationMethod := bi_did issuer +:+ "#key-1";
         pf_proofPurpose := "assertionMethod";
         pf_proofValue := proofValue |} in
    (* 12. Complete credential *)
    Ok {| vc_body := unsignedCredential; vc_proof := proof |}))
  end
  end.

(** [now] is the time value of [new Date()]. *)
Definition verifyCredential (now : Z) (credential : VerifiableCredential)
  : VerificationResult :=
  let body := vc_body credential in
  let errs : list string := [] in
  (* 1. Verify expiration *)
  let expirationDate := dateParse rt (vc_expirationDate body) in
  let errs :=
    if laterThan now expirationDate then errs ++ ["Credential has expired"]
    else errs in
  (* 2. Verify not decommissioned *)
  let errs :=
    if vc_decommissionedAt body is None then errs
    else errs ++ ["Credential has been decommissioned"] in
  (* 3. Verify issuer exists *)
  match getIssuerByDid registry (doc_id (vc_issuer body)) with
  | None => {| valid := false; errors := errs ++ ["Unknown issuer"] |}
  | Some issuer =>
      (* 4. Verify signature *)
      let canonical := canonicalData body in
      match verifySignature rt canonical (pf_proofValue (vc_proof credential))
              (bi_publicKey issuer) (bi_signatureAlgorithm issuer) with
      | Ok signatureValid =>
          let errs :=
            if negb signatureValid then errs ++ ["Invalid signature"] else errs in
          {| valid := (List.length errs =? 0)%nat && signatureValid;
             errors := errs |}
      | Throw message =>
          {| valid := false;
             errors := errs ++ ["Verification error: " +:+ message] |}
      end
  end.

(** [now] is the time value of [new Date()]. *)
Definition revokeCredential (now : Z) (credential : VerifiableCredential)
  : VerifiableCredential :=
  let b := vc_body credential in
  {| vc_body :=
       {| vc_context := vc_context b;
          vc_id := vc_id b;
          vc_type := vc_type b;
          vc_issuer := vc_issuer b;
          vc_issuanceDate := vc_issuanceDate b;
          vc_expirationDate := vc_expirationDate b;
          vc_credentialSubject := vc_credentialSubject b;
          vc_decommissionedAt := Some (toISOString rt now);
          vc_credentialStatus := vc_credentialStatus b |};
     vc_proof := vc_proof credential |}.

(** The [for ... of] loop of [batchIssueCredentials]; [clock i] is what
    the call for the request at position [i] reads. *)
Fixpoint batchLoop (clock : nat -> Readings) (i : nat)
    (requests : list IssueCredentialRequest)
    (good : list VerifiableCredential)
    (bad : list (IssueCredentialRequest * string)) : BatchResult :=
  match requests with
  | [] => {| successful := good; failed := bad |}
  | request :: rest =>
      match issueCredential (clock i) request with
      | Ok credential =>
          batchLoop clock (S i) rest (good ++ [credential]) bad
      | Throw message =>
          batchLoop clock (S i) rest good (bad ++ [(request, message)])
      end
  end.

Definition batchIssueCredentials (clock : nat -> Readings)
    (requests : list IssueCredentialRequest) : BatchResult :=
  batchLoop clock 0 requests [] [].

End Service.


Definition withAlgorithm (a : option string) (r : IssueCredentialRequest)
  : IssueCredentialRequest :=
  {| req_customerKycId := req_customerKycId r;
     req_issuerDid := req_issuerDid r;
     req_kycLevel := req_kycLevel r;
     req_accreditedInvestor := req_accreditedInvestor r;
     req_jurisdiction := req_jurisdiction r;
     req_expiryDays := req_expiryDays r;
     req_signatureAlgorithm := a |}.

(** ** A stand-in runtime and test data

    To run the model on concrete inputs the primitives need values.
    [Sample.runtime] formats and parses dates as [Date] does for
    four-digit years, and replaces the hash and the two signature
    schemes by transparent stand-ins: the "digest" is the hex of the
    data, a public key is the reversed private key, and a signature is
    the key followed by the message.  It is test scaffolding, not a
    model of SHA-256, Ed25519 or secp256k1. *)

Module Sample.

Definition pad (width : nat) (n : Z) : string :=
  let s := numberToString n in
  String.concat "" (repeat "0" (width - String.length s)%nat) +:+ s.

(** Year, month and day of a day number counted from 1970-01-01. *)
Definition civilFromDays (day : Z) : Z * Z * Z :=
  let z := day + 719468 in
  let era := z / 146097 in
  let doe := z mod 146097 in
  let yoe := (doe - doe / 1460 + doe / 36524 - doe / 146096) / 365 in
  let doy := doe - (365 * yoe + yoe / 4 - yoe / 100) in
  let mp := (5 * doy + 2) / 153 in
  let d := doy - (153 * mp + 2) / 5 + 1 in
  let m := if mp <? 10 then mp + 3 else mp - 9 in
  let y := yoe + era * 400 + (if m <=? 2 then 1 else 0) in
  (y, m, d).

Definition daysFromCivil (y m d : Z) : Z :=
  let y' := if m <=? 2 then y - 1 else y in
  let era := y' / 400 in
  let yoe := y' mod 400 in
  let doy := (153 * (if 2 <? m then m - 3 else m + 9) + 2) / 5 + d - 1 in
  let doe := yoe * 365 + yoe / 4 - yoe / 100 + doy in
  era * 146097 + doe - 719468.

Definition isoString (t : Z) : string :=
  let '(y, m, d) := civilFromDays (t / msPerDay) in
  let r := t mod msPerDay in
  let year :=
    if (0 <=? y) && (y <=? 9999) then pad 4 y
    else (if y <? 0 then "-" else "+") +:+ pad 6 (Z.abs y) in
  year +:+ "-" +:+ pad 2 m +:+ "-" +:+ pad 2 d +:+ "T"
    +:+ pad 2 (r / 3600000) +:+ ":" +:+ pad 2 (r / 60000 mod 60) +:+ ":"
    +:+ pad 2 (r / 1000 mod 60) +:+ "." +:+ pad 3 (r mod 1000) +:+ "Z".

Fixpoint digitsFrom (acc : Z) (s : string) : option Z :=
  match s with
  | EmptyString => Some acc
  | String c rest =>
      let n := Z.of_N (N_of_ascii c) in
      if (48 <=? n) && (n <=? 57) then digitsFrom (10 * acc + (n - 48)) rest
      else None
  end.

Definition field (start len : nat) (s : string) : option Z :=
  digitsFrom 0 (String.substring start len s).

Definition within (lo hi : Z) (n : Z) : option Z :=
  if (lo <=? n) && (n <=? hi) then Some n else None.

(** [YYYY-MM-DDTHH:mm:ss.sssZ]; anything else is an invalid date here. *)
Definition parseIso (s : string) : option Z :=
  if negb (String.eqb (String.substring 4 1 s +:+ String.substring 7 1 s
                       +:+ String.substring 10 1 s +:+ String.substring 13 1 s
                       +:+ String.substring 16 1 s +:+ String.substring 19 1 s
                       +:+ String.substring 23 2 s) "--T::.Z")
  then None
  else
    y ← field 0 4 s;
    mo ← field 5 2 s ≫= within 1 12;
    d ← field 8 2 s ≫= within 1 31;
    h ← field 11 2 s ≫= within 0 23;
    mi ← field 14 2 s ≫= within 0 59;
    sec ← field 17 2 s ≫= within 0 59;
    ms ← field 20 3 s;
    Some (daysFromCivil y mo d * msPerDay
          + h * 3600000 + mi * 60000 + sec * 1000 + ms).

Definition secpTag : string := "30".

Definition runtime : Runtime :=
  {| sha256Hex := fun data => toHex (list_byte_of_string data);
     ed25519_sign := fun message key => Ok (key ++ message);
     ed25519_verify := fun signature message publicKey =>
       Ok (bool_decide (signature = rev publicKey ++ message));
     secp256k1_sign := fun messageHash key =>
       Ok (secpTag +:+ toHex key +:+ messageHash);
     secp256k1_verify := fun signatureHex messageHash publicKey =>
       Ok (String.eqb signatureHex
             (secpTag +:+ toHex (rev publicKey) +:+ messageHash));
     toISOString := isoString;
     dateParse := parseIso |}.

(** An issuer shaped like [JPMORGAN_ISSUER], with key material of the
    stand-in scheme. *)
Definition jpmorgan : BankIssuer :=
  {| bi_did := "did:did3:bank:jpmorgan";
     bi_name := "JPMorgan Chase Bank, N.A.";
     bi_jurisdiction := ["US"];
     bi_regulators := ["OCC"; "FINRA"; "SEC"; "Federal Reserve"];
     bi_tier := 5;
     bi_privateKey := "54186ec5";
     bi_publicKey := "c56e1854";
     bi_signatureAlgorithm := "Ed25519" |}.

(** Shaped like [GOLDMAN_SACHS_ISSUER]. *)
Definition goldman : BankIssuer :=
  {| bi_did := "did:did3:bank:goldmansachs";
     bi_name := "Goldman Sachs Bank USA";
     bi_jurisdiction := ["US"];
     bi_regulators := ["OCC"; "SEC"; "FINRA"];
     bi_tier := 5;
     bi_privateKey := "8009afda";
     bi_publicKey := "daaf0980";
     bi_signatureAlgorithm := "secp256k1" |}.

Definition registry : gmap string BankIssuer :=
  <[bi_did jpmorgan := jpmorgan]> (<[bi_did goldman := goldman]> ∅).

(** The second sample customer of [initializeMockDatabase]. *)
Definition bob : CustomerKYCData :=
  {| kyc_kycId := "KYC-002";
     kyc_name := "Bob Smith";
     kyc_dateOfBirth := "1990-07-22";
     kyc_citizenship := "US";
     kyc_address := "456 Market Street, San Francisco, CA 94102";
     kyc_kycLevel := "basic";
     kyc_amlScreening := "passed";
     kyc_sanctionsCheck := "passed";
     kyc_pepScreening := "passed";
     kyc_sourceOfFunds := "verified";
     kyc_accreditedInvestor := false;
     kyc_entityType := "individual";
     kyc_verifiedAmount := 100000;
     kyc_currency := "USD";
     kyc_tier := 3;
     kyc_jurisdictions := ["US"];
     kyc_userDid := Some "did:did3:user:0x8f3e4d5c6b7a8901234567890abcdef12345678" |}.

Definition withScreening (id aml sanctions pep : string) (k : CustomerKYCData)
  : CustomerKYCData :=
  {| kyc_kycId := id;
     kyc_name := kyc_name k;
     kyc_dateOfBirth := kyc_dateOfBirth k;
     kyc_citizenship := kyc_citizenship k;
     kyc_address := kyc_address k;
     kyc_kycLevel := kyc_kycLevel k;
     kyc_amlScreening := aml;
     kyc_sanctionsCheck := sanctions;
     kyc_pepScreening := pep;
     kyc_sourceOfFunds := kyc_sourceOfFunds k;
     kyc_accreditedInvestor := kyc_accreditedInvestor k;
     kyc_entityType := kyc_entityType k;
     kyc_verifiedAmount := kyc_verifiedAmount k;
     kyc_currency := kyc_currency k;
     kyc_tier := kyc_tier k;
     kyc_jurisdictions := kyc_jurisdictions k;
     kyc_userDid := kyc_userDid k |}.

(** Two customers that differ from [bob] in one screening each. *)
Definition sanctioned : CustomerKYCData :=
  withScreening "KYC-900" "passed" "failed" "passed" bob.
Definition amlFailed : CustomerKYCData :=
  withScreening "KYC-901" "failed" "passed" "passed" bob.

Definition kycDatabase : gmap string CustomerKYCData :=
  <[kyc_kycId bob := bob]>
    (<[kyc_kycId sanctioned := sanctioned]>
       (<[kyc_kycId amlFailed := amlFailed]> ∅)).

Definition request (customer : string) : IssueCredentialRequest :=
  {| req_customerKycId := customer;
     req_issuerDid := "did:did3:bank:jpmorgan";
     req_kycLevel := "basic";
     req_accreditedInvestor := false;
     req_jurisdiction := ["US"];
     req_expiryDays := Some 180;
     req_signatureAlgorithm := None |}.

(** 2026-11-02T00:00:00.000Z *)
Definition t0 : Z := 1793577600000.

Definition readings : Readings :=
  {| rd_dateNow := t0; rd_now := t0; rd_random := 4711 |}.

Definition issue (r : IssueCredentialRequest) : result VerifiableCredential :=
  issueCredential runtime registry kycDatabase readings r.

Definition verify (now : Z) (c : VerifiableCredential) : VerificationResult :=
  verifyCredential runtime registry now c.

(** One payload built twice, the properties in different orders. *)
Definition payload : list (string * JSON) :=
  [("id", JStr "did:did3:credential:0011223344556677");
   ("issuer", JObj [("id", JStr "did:did3:bank:jpmorgan");
                    ("name", JStr "JPMorgan Chase Bank, N.A.")]);
   ("type", JArr [JStr "VerifiableCredential"; JStr "KYCCredential"]);
   ("decommissionedAt", JNull)].

Definition payloadStep : list (string * JSON) :=
  [("decommissionedAt", JNull);
   ("issuer", JObj [("id", JStr "did:did3:bank:jpmorgan");
                    ("name", JStr "JPMorgan Chase Bank, N.A.")]);
   ("type", JArr [JStr "VerifiableCredential"; JStr "KYCCredential"]);
   ("id", JStr "did:did3:credential:0011223344556677")].

Definition payloadReordered : list (string * JSON) :=
  [("decommissionedAt", JNull);
   ("issuer", JObj [("name", JStr "JPMorgan Chase Bank, N.A.");
                    ("id", JStr "did:did3:bank:jpmorgan")]);
   ("type", JArr [JStr "VerifiableCredential"; JStr "KYCCredential"]);
   ("id", JStr "did:did3:credential:0011223344556677")].

(** The credential [issueCredential] returns for [request "KYC-002"]
    under [readings]. *)
Definition bobBody : CredentialBody :=
  {| vc_context := contextUrls;
     vc_id := "did:did3:credential:6469643a64696433";
     vc_type := credentialTypes;
     vc_issuer :=
       {| doc_id := "did:did3:bank:jpmorgan";
          doc_name := "JPMorgan Chase Bank, N.A.";
          doc_jurisdiction := Some ["US"];
          doc_regulators := Some ["OCC"; "FINRA"; "SEC"; "Federal Reserve"];
          doc_tier := Some 5 |};
     vc_issuanceDate := "2026-11-02T00:00:00.000Z";
     vc_expirationDate := "2027-05-01T00:00:00.000Z";
     vc_credentialSubject :=
       {| cs_id := "did:did3:user:0x8f3e4d5c6b7a8901234567890abcdef12345678";
          cs_hashedPII :=
            {| pii_name := hashPII runtime "Bob Smith" None;
               pii_dateOfBirth := hashPII runtime "1990-07-22" None;
               pii_citizenship := hashPII runtime "US" None;
               pii_address :=
                 hashPII runtime "456 Market Street, San Francisco, CA 94102" None |};
          cs_claims :=
            {| cl_kycLevel := "basic";
               cl_amlScreening := "passed";
               cl_sanctionsCheck := "passed";
               cl_pepScreening := "passed";
               cl_sourceOfFunds := "verified";
               cl_accreditedInvestor := false;
               cl_entityType := "individual" |};
          cs_amountVerifiedFor := {| amt_value := 100000; amt_currency := "USD" |};
          cs_tier := 3;
          cs_jurisdictions := ["US"] |};
     vc_decommissionedAt := None;
     vc_credentialStatus :=
       {| st_id := "https://did3.org/credentials/status/6469643a64696433";
          st_type := "DID3RevocationRegistry";
          st_registryContract := Some mockContract;
          st_tokenId := Some "4711" |} |}.

Definition signatureOf (r : result string) : string :=
  match r with
  | Ok s => s
  | Throw _ => ""
  end.

Definition proofWith (proofType algorithm : string) : Proof :=
  {| pf_type := proofType;
     pf_created := "2026-11-02T00:00:00.000Z";
     pf_verificationMethod := "did:did3:bank:jpmorgan#key-1";
     pf_proofPurpose := "assertionMethod";
     pf_proofValue :=
       signatureOf (signCredential runtime (canonicalData bobBody)
                      (bi_privateKey jpmorgan) algorithm) |}.

Definition bobCredential : VerifiableCredential :=
  {| vc_body := bobBody;
     vc_proof := proofWith "Ed25519Signature2020" "Ed25519" |}.

(** The same request with [signatureAlgorithm: 'secp256k1']. *)
Definition bobOverridden : VerifiableCredential :=
  {| vc_body := bobBody;
     vc_proof := proofWith "EcdsaSecp256k1Signature2019" "secp256k1" |}.

Definition withIssuerId (did : string) (c : VerifiableCredential)
  : VerifiableCredential :=
  let b := vc_body c in
  {| vc_body :=
       {| vc_context := vc_context b;
          vc_id := vc_id b;
          vc_type := vc_type b;
          vc_issuer :=
            {| doc_id := did;
               doc_name := doc_name (vc_issuer b);
               doc_jurisdiction := doc_jurisdiction (vc_issuer b);
               doc_regulators := doc_regulators (vc_issuer b);
               doc_tier := doc_tier (vc_issuer b) |};
          vc_issuanceDate := vc_issuanceDate b;
          vc_expirationDate := vc_expirationDate b;
          vc_credentialSubject := vc_credentialSubject b;
          vc_decommissionedAt := vc_decommissionedAt b;
          vc_credentialStatus := vc_credentialStatus b |};
     vc_proof := vc_proof c |}.

(** A credential that names an issuer the registry does not know. *)
Definition strangerCredential : VerifiableCredential :=
  withIssuerId "did:did3:bank:unknown" bobCredential.

(** 2027-05-01T00:00:00.000Z, when [bobCredential] expires. *)
Definition tExpiry : Z := t0 + 180 * msPerDay.

(** [bob]'s claims with the level raised, a larger amount, and the
    tier with its lowest bit flipped (3 to 2). *)
Definition raisedClaims : KYCClaims :=
  {| cl_kycLevel := "institutional";
     cl_amlScreening := "passed";
     cl_sanctionsCheck := "passed";
     cl_pepScreening := "passed";
     cl_sourceOfFunds := "verified";
     cl_accreditedInvestor := true;
     cl_entityType := "individual" |}.

Definition raisedAmount : AmountVerification :=
  {| amt_value := 900000000; amt_currency := "USD" |}.

(** The bytes of the signature in [bobCredential]. *)
Definition bobSignature : list byte :=
  fromHex (slice1 (pf_proofValue (vc_proof bobCredential))).

(** A batch: a valid request, one for an unknown customer, one for a
    customer who failed a screening, and the valid request again. *)
Definition batch : list IssueCredentialRequest :=
  [request "KYC-002"; request "KYC-404"; request "KYC-900"; request "KYC-002"].

Definition clock (i : nat) : Readings :=
  {| rd_dateNow := t0 + Z.of_nat i;
     rd_now := t0 + Z.of_nat i;
     rd_random := 4711 + Z.of_nat i |}.

End Sample.

(** ** Vocabulary of the properties *)

(** The nine top-level property names, sorted. *)
Definition credentialKeys : list string :=
  ["@context"; "credentialStatus"; "credentialSubject"; "decommissionedAt";
   "expirationDate"; "id"; "issuanceDate"; "issuer"; "type"].

Definition member (key value : string) : string :=
  QuoteJSONString key +:+ ":" +:+ value.

Definition braces (parts : list string) : string :=
  "{" +:+ joinWith "," parts +:+ "}".

(** The text that is signed, written out.  Of the nested objects only
    the properties whose names are also top-level names appear: [id] of
    the issuer, [id] of the credential subject, [id] and [type] of the
    credential status. *)
Definition signedText (b : CredentialBody) : string :=
  braces
    [member "@context"
       (SerializeJSONProperty credentialKeys (jsonOfStrings (vc_context b)));
     member "credentialStatus"
       (braces [member "id" (QuoteJSONString (st_id (vc_credentialStatus b)));
                member "type" (QuoteJSONString (st_type (vc_credentialStatus b)))]);
     member "credentialSubject"
       (braces [member "id" (QuoteJSONString (cs_id (vc_credentialSubject b)))]);
     member "decommissionedAt"
       (SerializeJSONProperty credentialKeys (jsonOfNullable (vc_decommissionedAt b)));
     member "expirationDate" (QuoteJSONString (vc_expirationDate b));
     member "id" (QuoteJSONString (vc_id b));
     member "issuanceDate" (QuoteJSONString (vc_issuanceDate b));
     member "issuer" (braces [member "id" (QuoteJSONString (doc_id (vc_issuer b)))]);
     member "type"
       (SerializeJSONProperty credentialKeys (jsonOfStrings (vc_type b)))].

(** The message of each entry of the error taxonomy, as the code words it. *)
Definition UnknownIssuer : string := "Unknown issuer".
Definition Expired : string := "Credential has expired".
Definition Revoked : string := "Credential has been decommissioned".
Definition InvalidSignature : string := "Invalid signature".
Definition ComplianceCheckFailed : string :=
  "Customer has not passed all required KYC checks".
Definition UnsupportedAlgorithm (algorithm : string) : string :=
  "Unsupported signature algorithm: " +:+ algorithm.

(** The test of step 3 of [issueCredential]: some screening is not
    ['passed']. *)
Definition failsScreening (kycData : CustomerKYCData) : bool :=
  negb (String.eqb (kyc_amlScreening kycData) "passed")
  || negb (String.eqb (kyc_sanctionsCheck kycData) "passed")
  || negb (String.eqb (kyc_pepScreening kycData) "passed").

(** [request.expiryDays || 365] *)
Definition expiryDaysOf (request : IssueCredentialRequest) : Z :=
  orNumber (req_expiryDays request) 365.

(** The entries [verifyCredential] pushes before it looks up the issuer:
    the expiration entry, then the revocation entry. *)
Definition stateErrors (rt : Runtime) (now : Z) (body : CredentialBody)
  : list string :=
  (if laterThan now (dateParse rt (vc_expirationDate body)) then [Expired] else [])
  ++ (if vc_decommissionedAt body is None then [] else [Revoked]).

(** Two values with the same properties and the same items: objects may
    list their properties in different orders, at any depth. *)
Unset Elimination Schemes.
Inductive sameValue : JSON -> JSON -> Prop :=
| same_null : sameValue JNull JNull
| same_bool b : sameValue (JBool b) (JBool b)
| same_num n : sameValue (JNum n) (JNum n)
| same_str s : sameValue (JStr s) (JStr s)
| same_arr xs ys :
    Forall2 sameValue xs ys -> sameValue (JArr xs) (JArr ys)
| same_obj fs reordered gs :
    fs ≡ₚ reordered ->
    Forall2 (fun f g => f.1 = g.1 /\ sameValue f.2 g.2) reordered gs ->
    sameValue (JObj fs) (JObj gs).

(** A JavaScript object has each property name once. *)
Inductive wellFormed : JSON -> Prop :=
| wf_null : wellFormed JNull
| wf_bool b : wellFormed (JBool b)
| wf_num n : wellFormed (JNum n)
| wf_str s : wellFormed (JStr s)
| wf_arr xs : Forall wellFormed xs -> wellFormed (JArr xs)
| wf_obj fs :
    NoDup (objectKeys fs) ->
    Forall (fun f => wellFormed f.2) fs ->
    wellFormed (JObj fs).
Set Elimination Schemes.

(** Every issuer is filed under its own DID, as [ISSUER_REGISTRY] and
    [registerIssuer] do. *)
Definition keyedByDid (registry : gmap string BankIssuer) : Prop :=
  forall did issuer, registry !! did = Some issuer -> bi_did issuer = did.

(** The credential with the claims, the verified amount and the tier of
    its subject replaced. *)
Definition tamperSubject (claims : KYCClaims) (amount : AmountVerification)
    (tier : Z) (c : VerifiableCredential) : VerifiableCredential :=
  let b := vc_body c in
  let s := vc_credentialSubject b in
  {| vc_body :=
       {| vc_context := vc_context b;
          vc_id := vc_id b;
          vc_type := vc_type b;
          vc_issuer := vc_issuer b;
          vc_issuanceDate := vc_issuanceDate b;
          vc_expirationDate := vc_expirationDate b;
          vc_credentialSubject :=
            {| cs_id := cs_id s;
               cs_hashedPII := cs_hashedPII s;
               cs_claims := claims;
               cs_amountVerifiedFor := amount;
               cs_tier := tier;
               cs_jurisdictions := cs_jurisdictions s |};
          vc_decommissionedAt := vc_decommissionedAt b;
          vc_credentialStatus := vc_credentialStatus b |};
     vc_proof := vc_proof c |}.

(** The signed text up to the value of [decommissionedAt], and after it. *)
Definition textBeforeMarker (b : CredentialBody) : string :=
  "{"
  +:+ member "@context"
        (SerializeJSONProperty credentialKeys (jsonOfStrings (vc_context b)))
  +:+ ","
  +:+ member "credentialStatus"
        (braces [member "id" (QuoteJSONString (st_id (vc_credentialStatus b)));
                 member "type" (QuoteJSONString (st_type (vc_credentialStatus b)))])
  +:+ ","
  +:+ member "credentialSubject"
        (braces [member "id" (QuoteJSONString (cs_id (vc_credentialSubject b)))])
  +:+ ","
  +:+ QuoteJSONString "decommissionedAt" +:+ ":".

Definition textAfterMarker (b : CredentialBody) : string :=
  ","
  +:+ member "expirationDate" (QuoteJSONString (vc_expirationDate b))
  +:+ ","
  +:+ member "id" (QuoteJSONString (vc_id b))
  +:+ ","
  +:+ member "issuanceDate" (QuoteJSONString (vc_issuanceDate b))
  +:+ ","
  +:+ member "issuer" (braces [member "id" (QuoteJSONString (doc_id (vc_issuer b)))])
  +:+ ","
  +:+ member "type"
        (SerializeJSONProperty credentialKeys (jsonOfStrings (vc_type b)))
  +:+ "}".

(** The algorithm [issueCredential] signs with. *)
Definition signingAlgorithm (request : IssueCredentialRequest) (issuer : BankIssuer)
  : string :=
  orElse (req_signatureAlgorithm request) (bi_signatureAlgorithm issuer).

(** No forgery between two texts: if the signature in the proof of [c]
    is accepted for [other], under the key and the algorithm of the
    issuer of [c], then [other] is the canonical form of [c].  This is
    what a signature scheme is trusted to provide for the texts at hand;
    it is asked of one [other] at a time. *)
Definition signatureBoundTo (rt : Runtime) (registry : gmap string BankIssuer)
    (c : VerifiableCredential) (other : string) : Prop :=
  forall issuer,
    getIssuerByDid registry (doc_id (vc_issuer (vc_body c))) = Some issuer ->
    verifySignature rt other (pf_proofValue (vc_proof c))
      (bi_publicKey issuer) (bi_signatureAlgorithm issuer) = Ok true ->
    other = canonicalData (vc_body c).

(** The signature check answered, and the answer is yes. *)
Definition accepted (r : result bool) : bool :=
  match r with
  | Ok true => true
  | _ => false
  end.

(** What the signature check adds to the error list. *)
Definition signatureErrors (r : result bool) : list string :=
  match r with
  | Ok true => []
  | Ok false => [InvalidSignature]
  | Throw message => ["Verification error: " +:+ message]
  end.

(** The screenings a KYC record has not passed, by property name. *)
Definition failedChecks (kycData : CustomerKYCData) : list string :=
  (if String.eqb (kyc_amlScreening kycData) "passed" then [] else ["amlScreening"])
  ++ (if String.eqb (kyc_sanctionsCheck kycData) "passed" then [] else ["sanctionsCheck"])
  ++ (if String.eqb (kyc_pepScreening kycData) "passed" then [] else ["pepScreening"]).

(** The outcome of each request of a batch, in input order. *)
Definition outcomes (rt : Runtime) (registry : gmap string BankIssuer)
    (kycDatabase : gmap string CustomerKYCData) (clock : nat -> Readings)
    (requests : list IssueCredentialRequest)
  : list (IssueCredentialRequest * result VerifiableCredential) :=
  imap (fun i request =>
          (request, issueCredential rt registry kycDatabase (clock i) request))
       requests.

Definition issuedOf (o : IssueCredentialRequest * result VerifiableCredential)
  : option VerifiableCredential :=
  match o.2 with
  | Ok credential => Some credential
  | Throw _ => None
  end.

Definition failureOf (o : IssueCredentialRequest * result VerifiableCredential)
  : option (IssueCredentialRequest * string) :=
  match o.2 with
  | Ok _ => None
  | Throw message => Some (o.1, message)
  end.

(** Tactics that build [wellFormed] and [sameValue] facts of literal
    values. *)
Ltac names_differ := apply (bool_decide_unpack _); vm_compute; exact I.

Ltac build_value :=
  repeat lazymatch goal with
    | |- NoDup _ => names_differ
    | |- _ /\ _ => split; [reflexivity |]
    | |- _ => constructor
    end.

(** ** The stores as [Map]s

    [ISSUER_REGISTRY] and [kycDatabase] are [Map]s.  A [Map] lists its
    entries in insertion order; [set] on a key that is present replaces
    the value where it stands, and on a new key adds the entry at the
    end.  [Map.prototype.get] is [getProp]. *)

Fixpoint mapSet {V} (key : string) (value : V) (m : list (string * V))
  : list (string * V) :=
  match m with
  | [] => [(key, value)]
  | (k, x) :: rest =>
      if String.eqb k key then (k, value) :: rest
      else (k, x) :: mapSet key value rest
  end.

(** [m.delete(key)]: whether the key was there, and the map without it. *)
Fixpoint mapDelete {V} (key : string) (m : list (string * V))
  : bool * list (string * V) :=
  match m with
  | [] => (false, [])
  | (k, x) :: rest =>
      if String.eqb k key then (true, rest)
      else ((mapDelete key rest).1, (k, x) :: (mapDelete key rest).2)
  end.

Definition mapHas {V} (key : string) (m : list (string * V)) : bool :=
  match getProp key m with
  | Some _ => true
  | None => false
  end.

(** [Array.from(m.values())] *)
Definition mapValues {V} (m : list (string * V)) : list V := map snd m.

(** [new Map(entries)] *)
Definition mapOfEntries {V} (entries : list (string * V)) : list (string * V) :=
  foldl (fun m e => mapSet e.1 e.2 m) [] entries.

(** The store as the service reads it, by key. *)
Definition byKey {V} (m : list (string * V)) : gmap string V := list_to_map m.

(** *** config/bank-issuers.ts *)

Module BankIssuers.

Definition JPMORGAN_ISSUER : BankIssuer :=
  {| bi_did := "did:did3:bank:jpmorgan";
     bi_name := "JPMorgan Chase Bank, N.A.";
     bi_jurisdiction := ["US"];
     bi_regulators := ["OCC"; "FINRA"; "SEC"; "Federal Reserve"];
     bi_tier := 5;
     bi_privateKey := "54186ec52d7261b0f6b484e4692a7de73f5a6332ce1e6b9964e053824a783994";
     bi_publicKey := "cd55868eb107b66bf1d0055387fabdc7a632688037a38103e42e98da293255cf";
     bi_signatureAlgorithm := "Ed25519" |}.

Definition GOLDMAN_SACHS_ISSUER : BankIssuer :=
  {| bi_did := "did:did3:bank:goldmansachs";
     bi_name := "Goldman Sachs Bank USA";
     bi_jurisdiction := ["US"];
     bi_regulators := ["OCC"; "SEC"; "FINRA"];
     bi_tier := 5;
     bi_privateKey := "8009afda5d258a17b4eff2c107540d2eeb546e2edc74a1f8ebab9470f5cfc36d";
     bi_publicKey := "025c0424a9ef3787a4ef008353314c3788ff951ae09645487fc640df733d7da72e";
     bi_signatureAlgorithm := "secp256k1" |}.

Definition HSBC_ISSUER : BankIssuer :=
  {| bi_did := "did:did3:bank:hsbc";
     bi_name := "HSBC Bank plc";
     bi_jurisdiction := ["UK"; "EU"; "APAC"];
     bi_regulators := ["FCA"; "PRA"; "ECB"];
     bi_tier := 5;
     bi_privateKey := "c752847833e258e915fdd8dd0d65983e32ee0549857bdebbccb6c619dc9d8e57";
     bi_publicKey := "358812b95b1a2ccead7b5f190b5458298423cf5cc5e0a9e27185e9ebeddcf92a";
     bi_signatureAlgorithm := "Ed25519" |}.

Definition DBS_ISSUER : BankIssuer :=
  {| bi_did := "did:did3:bank:dbs";
     bi_name := "DBS Bank Ltd";
     bi_jurisdiction := ["SG"; "APAC"];
     bi_regulators := ["MAS"];
     bi_tier := 4;
     bi_privateKey := "0f5a99c0c04f490f7d1bc851cb3623461bfb05ccc7f3492db3ae652bc94071ce";
     bi_publicKey := "025815520bd779e958606656a22b0179738f8c3b9220547455c191945855c68b4d";
     bi_signatureAlgorithm := "secp256k1" |}.

(** The registry when the module is loaded. *)
Definition ISSUER_REGISTRY : list (string * BankIssuer) :=
  mapOfEntries
    [(bi_did JPMORGAN_ISSUER, JPMORGAN_ISSUER);
     (bi_did GOLDMAN_SACHS_ISSUER, GOLDMAN_SACHS_ISSUER);
     (bi_did HSBC_ISSUER, HSBC_ISSUER);
     (bi_did DBS_ISSUER, DBS_ISSUER)].

End BankIssuers.


Definition registerIssuer (issuer : BankIssuer) (registry : list (string * BankIssuer))
  : list (string * BankIssuer) :=
  mapSet (bi_did issuer) issuer registry.

Definition isIssuerRegistered (registry : list (string * BankIssuer)) (did : string)
  : bool :=
  mapHas did registry.

(** *** mocks/kyc-database.ts *)

Module MockDatabase.

Definition alice : CustomerKYCData :=
  {| kyc_kycId := "KYC-001";
     kyc_name := "Alice Johnson";
     kyc_dateOfBirth := "1985-03-15";
     kyc_citizenship := "US";
     kyc_address := "123 Wall Street, New York, NY 10005";
     kyc_kycLevel := "enhanced";
     kyc_amlScreening := "passed";
     kyc_sanctionsCheck := "passed";
     kyc_pepScreening := "passed";
     kyc_sourceOfFunds := "verified";
     kyc_accreditedInvestor := true;
     kyc_entityType := "individual";
     kyc_verifiedAmount := 5000000;
     kyc_currency := "USD";
     kyc_tier := 2;
     kyc_jurisdictions := ["US"];
     kyc_userDid := Some "did:did3:user:0x742d35Cc6634C0532925a3b844Bc9e7595f0bEb" |}.

Definition bobSmith : CustomerKYCData :=
  {| kyc_kycId := "KYC-002";
     kyc_name := "Bob Smith";
     kyc_dateOfBirth := "1990-07-22";
     kyc_citizenship := "US";
     kyc_address := "456 Market Street, San Francisco, CA 94102";
     kyc_kycLevel := "basic";
     kyc_amlScreening := "passed";
     kyc_sanctionsCheck := "passed";
     kyc_pepScreening := "passed";
     kyc_sourceOfFunds := "verified";
     kyc_accreditedInvestor := false;
     kyc_entityType := "individual";
     kyc_verifiedAmount := 100000;
     kyc_currency := "USD";
     kyc_tier := 3;
     kyc_jurisdictions := ["US"];
     kyc_userDid := Some "did:did3:user:0x8f3e4d5c6b7a8901234567890abcdef12345678" |}.

Definition acme : CustomerKYCData :=
  {| kyc_kycId := "KYC-003";
     kyc_name := "Acme Corporation";
     kyc_dateOfBirth := "2010-01-01";
     kyc_citizenship := "US";
     kyc_address := "789 Corporate Blvd, Chicago, IL 60601";
     kyc_kycLevel := "institutional";
     kyc_amlScreening := "passed";
     kyc_sanctionsCheck := "passed";
     kyc_pepScreening := "passed";
     kyc_sourceOfFunds := "verified";
     kyc_accreditedInvestor := true;
     kyc_entityType := "corporate";
     kyc_verifiedAmount := 50000000;
     kyc_currency := "USD";
     kyc_tier := 1;
     kyc_jurisdictions := ["US"; "EU"];
     kyc_userDid := Some "did:did3:user:0xabcdef1234567890abcdef1234567890abcdef12" |}.

Definition chenWei : CustomerKYCData :=
  {| kyc_kycId := "KYC-004";
     kyc_name := "Chen Wei";
     kyc_dateOfBirth := "1988-11-30";
     kyc_citizenship := "SG";
     kyc_address := "10 Marina Boulevard, Singapore 018983";
     kyc_kycLevel := "enhanced";
     kyc_amlScreening := "passed";
     kyc_sanctionsCheck := "passed";
     kyc_pepScreening := "passed";
     kyc_sourceOfFunds := "verified";
     kyc_accreditedInvestor := true;
     kyc_entityType := "individual";
     kyc_verifiedAmount := 3000000;
     kyc_currency := "USD";
     kyc_tier := 2;
     kyc_jurisdictions := ["SG"; "APAC"];
     kyc_userDid := Some "did:did3:user:0x1234567890abcdef1234567890abcdef12345678" |}.

Definition mariaGarcia : CustomerKYCData :=
  {| kyc_kycId := "KYC-005";
     kyc_name := "Maria Garcia";
     kyc_dateOfBirth := "1992-05-18";
     kyc_citizenship := "ES";
     kyc_address := "Calle Gran Via 28, Madrid 28013, Spain";
     kyc_kycLevel := "basic";
     kyc_amlScreening := "passed";
     kyc_sanctionsCheck := "passed";
     kyc_pepScreening := "passed";
     kyc_sourceOfFunds := "verified";
     kyc_accreditedInvestor := false;
     kyc_entityType := "individual";
     kyc_verifiedAmount := 250000;
     kyc_currency := "EUR";
     kyc_tier := 3;
     kyc_jurisdictions := ["EU"];
     kyc_userDid := Some "did:did3:user:0x9876543210fedcba9876543210fedcba98765432" |}.

Definition sampleCustomers : list CustomerKYCData :=
  [alice; bobSmith; acme; chenWei; mariaGarcia].

End MockDatabase.

(** [sampleCustomers.forEach(customer => kycDatabase.set(customer.kycId, customer))] *)
Definition initializeMockDatabase (kycDatabase : list (string * CustomerKYCData))
  : list (string * CustomerKYCData) :=
  foldl (fun db customer => mapSet (kyc_kycId customer) customer db)
    kycDatabase MockDatabase.sampleCustomers.

Definition upsertCustomerKYC (customer : CustomerKYCData)
    (kycDatabase : list (string * CustomerKYCData)) : list (string * CustomerKYCData) :=
  mapSet (kyc_kycId customer) customer kycDatabase.

Definition getAllCustomers (kycDatabase : list (string * CustomerKYCData))
  : list CustomerKYCData :=
  mapValues kycDatabase.

Definition deleteCustomerKYC (kycId : string)
    (kycDatabase : list (string * CustomerKYCData))
  : bool * list (string * CustomerKYCData) :=
  mapDelete kycId kycDatabase.

(** The criteria of [searchCustomers]; each may be left out. *)
Record SearchCriteria : Type := {
  sc_kycLevel : option string;
  sc_accreditedInvestor : option bool;
  sc_entityType : option string;
  sc_jurisdiction : option string
}.

(** A string that is there and is not empty. *)
Definition truthy (o : option string) : option string :=
  match o with
  | Some s => if String.eqb s "" then None else Some s
  | None => None
  end.

(** The callback of [customers.filter]. *)
Definition matchesCriteria (criteria : SearchCriteria) (customer : CustomerKYCData)
  : bool :=
  if (if truthy (sc_kycLevel criteria) is Some level
      then negb (String.eqb (kyc_kycLevel customer) level) else false)
  then false
  else if (if sc_accreditedInvestor criteria is Some flag
           then negb (Bool.eqb (kyc_accreditedInvestor customer) flag) else false)
  then false
  else if (if truthy (sc_entityType criteria) is Some entity
           then negb (String.eqb (kyc_entityType customer) entity) else false)
  then false
  else if (if truthy (sc_jurisdiction criteria) is Some place
           then negb (bool_decide (place ∈ kyc_jurisdictions customer)) else false)
  then false
  else true.

Definition searchCustomers (kycDatabase : list (string * CustomerKYCData))
    (criteria : SearchCriteria) : list CustomerKYCData :=
  let customers := mapValues kycDatabase in
  List.filter (matchesCriteria criteria) customers.

(** ** api/routes.ts

    A handler answers with a status code and a JSON body; the bodies
    are the shapes the handlers build. *)

Inductive ReplyBody : Type :=
| ErrorReply (error : string)
| FailureReply (error message : string)
| IssuedReply (success : bool) (credential : VerifiableCredential)
| BatchReply (success : bool) (totalRequests successfulCount failedCount : nat)
    (credentials : list VerifiableCredential)
    (failures : list (IssueCredentialRequest * string)).

Record HttpResponse : Type := {
  statusCode : Z;
  reply : ReplyBody
}.

(** [req.body] of POST /credentials/issue: any property may be missing. *)
Record IssueBody : Type := {
  ib_customerKycId : option string;
  ib_issuerDid : option string;
  ib_kycLevel : option string;
  ib_accreditedInvestor : option bool;
  ib_jurisdiction : option (list string);
  ib_expiryDays : option Z;
  ib_signatureAlgorithm : option string
}.

Definition missingField (name : string) : HttpResponse :=
  {| statusCode := 400; reply := ErrorReply ("Missing required field: " +:+ name) |}.

(** POST /credentials/issue *)
Definition postCredentialsIssue (rt : Runtime) (registry : gmap string BankIssuer)
    (kycDatabase : gmap string CustomerKYCData) (rd : Readings) (body : IssueBody)
  : HttpResponse :=
  match truthy (ib_customerKycId body) with
  | None => missingField "customerKycId"
  | Some customerKycId =>
  match truthy (ib_issuerDid body) with
  | None => missingField "issuerDid"
  | Some issuerDid =>
  match truthy (ib_kycLevel body) with
  | None => missingField "kycLevel"
  | Some kycLevel =>
  match ib_accreditedInvestor body with
  | None => missingField "accreditedInvestor"
  | Some accreditedInvestor =>
  match ib_jurisdiction body with
  | None | Some [] => missingField "jurisdiction"
  | Some jurisdiction =>
      let request :=
        {| req_customerKycId := customerKycId;
           req_issuerDid := issuerDid;
           req_kycLevel := kycLevel;
           req_accreditedInvestor := accreditedInvestor;
           req_jurisdiction := jurisdiction;
           req_expiryDays := ib_expiryDays body;
           req_signatureAlgorithm := ib_signatureAlgorithm body |} in
      match issueCredential rt registry kycDatabase rd request with
      | Ok credential =>
          {| statusCode := 201; reply := IssuedReply true credential |}
      | Throw message =>
          {| statusCode := 400;
             reply := FailureReply "Failed to issue credential" message |}
      end
  end end end end end.

(** POST /credentials/batch-issue; [requests] is [req.body.requests] when
    it is an array. *)
Definition postCredentialsBatchIssue (rt : Runtime) (registry : gmap string BankIssuer)
    (kycDatabase : gmap string CustomerKYCData) (clock : nat -> Readings)
    (requests : option (list IssueCredentialRequest)) : HttpResponse :=
  match requests with
  | None | Some [] =>
      {| statusCode := 400;
         reply := ErrorReply "Invalid request: expected array of credential requests" |}
  | Some requests =>
      let result := batchIssueCredentials rt registry kycDatabase clock requests in
      {| statusCode := 200;
         reply := BatchReply true (List.length requests)
                    (List.length (successful result)) (List.length (failed result))
                    (successful result) (failed result) |}
  end.

(** ** More vocabulary *)

(** The body with another subject id, with another expiration date. *)
Definition withSubjectId (id : string) (c : VerifiableCredential)
  : VerifiableCredential :=
  let b := vc_body c in
  let s := vc_credentialSubject b in
  {| vc_body :=
       {| vc_context := vc_context b;
          vc_id := vc_id b;
          vc_type := vc_type b;
          vc_issuer := vc_issuer b;
          vc_issuanceDate := vc_issuanceDate b;
          vc_expirationDate := vc_expirationDate b;
          vc_credentialSubject :=
            {| cs_id := id;
               cs_hashedPII := cs_hashedPII s;
               cs_claims := cs_claims s;
               cs_amountVerifiedFor := cs_amountVerifiedFor s;
               cs_tier := cs_tier s;
               cs_jurisdictions := cs_jurisdictions s |};
          vc_decommissionedAt := vc_decommissionedAt b;
          vc_credentialStatus := vc_credentialStatus b |};
     vc_proof := vc_proof c |}.

Definition withExpirationDate (date : string) (c : VerifiableCredential)
  : VerifiableCredential :=
  let b := vc_body c in
  {| vc_body :=
       {| vc_context := vc_context b;
          vc_id := vc_id b;
          vc_type := vc_type b;
          vc_issuer := vc_issuer b;
          vc_issuanceDate := vc_issuanceDate b;
          vc_expirationDate := date;
          vc_credentialSubject := vc_credentialSubject b;
          vc_decommissionedAt := vc_decommissionedAt b;
          vc_credentialStatus := vc_credentialStatus b |};
     vc_proof := vc_proof c |}.


(** The request with another jurisdiction list. *)
Definition withJurisdiction (places : list string) (r : IssueCredentialRequest)
  : IssueCredentialRequest :=
  {| req_customerKycId := req_customerKycId r;
     req_issuerDid := req_issuerDid r;
     req_kycLevel := req_kycLevel r;
     req_accreditedInvestor := req_accreditedInvestor r;
     req_jurisdiction := places;
     req_expiryDays := req_expiryDays r;
     req_signatureAlgorithm := req_signatureAlgorithm r |}.

(** The credential with another list of subject jurisdictions. *)
Definition withSubjectJurisdictions (places : list string) (c : VerifiableCredential)
  : VerifiableCredential :=
  let b := vc_body c in
  let s := vc_credentialSubject b in
  {| vc_body :=
       {| vc_context := vc_context b;
          vc_id := vc_id b;
          vc_type := vc_type b;
          vc_issuer := vc_issuer b;
          vc_issuanceDate := vc_issuanceDate b;
          vc_expirationDate := vc_expirationDate b;
          vc_credentialSubject :=
            {| cs_id := cs_id s;
               cs_hashedPII := cs_hashedPII s;
               cs_claims := cs_claims s;
               cs_amountVerifiedFor := cs_amountVerifiedFor s;
               cs_tier := cs_tier s;
               cs_jurisdictions := places |};
          vc_decommissionedAt := vc_decommissionedAt b;
          vc_credentialStatus := vc_credentialStatus b |};
     vc_proof := vc_proof c |}.

(** What [verifyCredential] reads of a credential: the properties that
    reach the signed text, and the proof value. *)
Definition verifiedFields (c : VerifiableCredential)
  : list string * string * string * string * option string * string * string
    * string * string * list string * string :=
  let b := vc_body c in
  (vc_context b, st_id (vc_credentialStatus b), st_type (vc_credentialStatus b),
   cs_id (vc_credentialSubject b), vc_decommissionedAt b, vc_expirationDate b,
   vc_id b, vc_issuanceDate b, doc_id (vc_issuer b), vc_type b,
   pf_proofValue (vc_proof c)).

(** The signed text up to the subject id, and after it. *)
Definition textBeforeSubject (b : CredentialBody) : string :=
  "{"
  +:+ member "@context"
        (SerializeJSONProperty credentialKeys (jsonOfStrings (vc_context b)))
  +:+ ","
  +:+ member "credentialStatus"
        (braces [member "id" (QuoteJSONString (st_id (vc_credentialStatus b)));
                 member "type" (QuoteJSONString (st_type (vc_credentialStatus b)))])
  +:+ ","
  +:+ QuoteJSONString "credentialSubject" +:+ ":{"
  +:+ QuoteJSONString "id" +:+ ":".

Definition textAfterSubject (b : CredentialBody) : string :=
  "},"
  +:+ member "decommissionedAt"
        (SerializeJSONProperty credentialKeys (jsonOfNullable (vc_decommissionedAt b)))
  +:+ textAfterMarker b.

(** The signed text up to the expiration date, and after it. *)
Definition textBeforeExpiration (b : CredentialBody) : string :=
  textBeforeMarker b
  +:+ SerializeJSONProperty credentialKeys (jsonOfNullable (vc_decommissionedAt b))
  +:+ "," +:+ QuoteJSONString "expirationDate" +:+ ":".

Definition textAfterExpiration (b : CredentialBody) : string :=
  ","
  +:+ member "id" (QuoteJSONString (vc_id b))
  +:+ ","
  +:+ member "issuanceDate" (QuoteJSONString (vc_issuanceDate b))
  +:+ ","
  +:+ member "issuer" (braces [member "id" (QuoteJSONString (doc_id (vc_issuer b)))])
  +:+ ","
  +:+ member "type"
        (SerializeJSONProperty credentialKeys (jsonOfStrings (vc_type b)))
  +:+ "}".

(** Reading back what [QuoteJSONString] wrote: the characters of a JSON
    string up to its closing quote, and the text after that quote. *)
Definition unescape (e : ascii) : option ascii :=
  let n := N_of_ascii e in
  if (n =? 34)%N then Some dquote
  else if (n =? 92)%N then Some backslash
  else if (n =? 98)%N then Some "008"%char
  else if (n =? 116)%N then Some "009"%char
  else if (n =? 110)%N then Some "010"%char
  else if (n =? 102)%N then Some "012"%char
  else if (n =? 114)%N then Some "013"%char
  else None.

Definition consChar (c : ascii) (r : option (string * string)) : option (string * string) :=
  match r with
  | Some (s, rest) => Some (String c s, rest)
  | None => None
  end.

Fixpoint readChars (s : string) : option (string * string) :=
  match s with
  | EmptyString => None
  | String c rest =>
      if Ascii.eqb c dquote then Some ("", rest)
      else if Ascii.eqb c backslash then
        match rest with
        | String e rest1 =>
            if Ascii.eqb e "u" then
              match rest1 with
              | String _ (String _ (String x (String y rest2))) =>
                  match unhex x, unhex y with
                  | Some hi, Some lo =>
                      consChar (ascii_of_N (16 * hi + lo)) (readChars rest2)
                  | _, _ => None
                  end
              | _ => None
              end
            else
              match unescape e with
              | Some c' => consChar c' (readChars rest1)
              | None => None
              end
        | EmptyString => None
        end
      else consChar c (readChars rest)
  end.

(** Whether a character occurs in a text. *)
Fixpoint occursIn (c : ascii) (s : string) : bool :=
  match s with
  | EmptyString => false
  | String d rest => Ascii.eqb d c || occursIn c rest
  end.

(** The body of POST /credentials/issue that carries a request. *)
Definition bodyOf (request : IssueCredentialRequest) : IssueBody :=
  {| ib_customerKycId := Some (req_customerKycId request);
     ib_issuerDid := Some (req_issuerDid request);
     ib_kycLevel := Some (req_kycLevel request);
     ib_accreditedInvestor := Some (req_accreditedInvestor request);
     ib_jurisdiction := Some (req_jurisdiction request);
     ib_expiryDays := req_expiryDays request;
     ib_signatureAlgorithm := req_signatureAlgorithm request |}.

(** Every customer is filed under its own KYC id, and no id twice. *)
Definition keyedByKycId (db : list (string * CustomerKYCData)) : Prop :=
  (forall id customer, getProp id db = Some customer -> kyc_kycId customer = id)
  /\ NoDup (objectKeys db).

(** The batch clock for the requests after the first [n]. *)
Definition laterClock (n : nat) (clock : nat -> Readings) : nat -> Readings :=
  fun i => clock (n + i)%nat.

(** Case analysis of a call of [issueCredential] that returned. *)
Ltac invert_issue H issuer kycData :=
  let Hissuer := fresh "Hissuer" in
  let Hkyc := fresh "Hkyc" in
  let Hscreen := fresh "Hscreen" in
  let Hlevel := fresh "Hlevel" in
  let Hflag := fresh "Hflag" in
  let Hclip := fresh "Hclip" in
  let Hsign := fresh "Hsign" in
  unfold issueCredential in H;
  destruct (getIssuerByDid _ _) as [issuer|] eqn:Hissuer; [| discriminate H];
  destruct (getCustomerKYC _ _) as [kycData|] eqn:Hkyc; [| discriminate H];
  fold (failsScreening kycData) in H;
  destruct (failsScreening kycData) eqn:Hscreen; [discriminate H |];
  destruct (String.eqb _ (kyc_kycLevel kycData)) eqn:Hlevel; [| discriminate H];
  destruct (Bool.eqb _ (kyc_accreditedInvestor kycData)) eqn:Hflag;
    [| discriminate H];
  apply String.eqb_eq in Hlevel; apply Bool.eqb_prop in Hflag;
  cbn [negb] in H;
  destruct (timeClip _) eqn:Hclip; [| discriminate H];
  cbn [dateToISOString bind] in H;
  destruct (signCredential _ _ _ _) eqn:Hsign; [| discriminate H];
  cbn [bind] in H; injection H as H.

(** * Properties *)

(** ** Strings and hex *)

Lemma append_assoc (a b c : string) : (a +:+ b) +:+ c = a +:+ (b +:+ c).
Proof.
  induction a as [|x a IH]; [done |].
  change (String x ((a +:+ b) +:+ c) = String x (a +:+ (b +:+ c))).
  by rewrite IH.
Qed.

Lemma append_empty_r (a : string) : a +:+ "" = a.
Proof.
  induction a as [|x a IH]; [done |].
  change (String x (a +:+ "") = String x a).
  by rewrite IH.
Qed.

Lemma fromHex_hexOfByte (b : byte) (rest : string) :
  fromHex (hexOfByte b +:+ rest) = b :: fromHex rest.
Proof. destruct b; reflexivity. Qed.

(** Decoding what [toHex] wrote gives the bytes back, and goes on with
    whatever follows. *)
Lemma fromHex_toHex_app (bs : list byte) (rest : string) :
  fromHex (toHex bs +:+ rest) = bs ++ fromHex rest.
Proof.
  induction bs as [|b bs IH].
  - done.
  - change (toHex (b :: bs)) with (hexOfByte b +:+ toHex bs).
    rewrite append_assoc, fromHex_hexOfByte, IH. done.
Qed.

Lemma fromHex_toHex (bs : list byte) : fromHex (toHex bs) = bs.
Proof.
  rewrite <- (append_empty_r (toHex bs)), fromHex_toHex_app.
  simpl. by rewrite app_nil_r.
Qed.

(** A single trailing character is dropped, whatever it is. *)
Lemma fromHex_single (c : ascii) : fromHex (String c "") = [].
Proof. done. Qed.

(** So is everything from the first character that is not a hex digit. *)
Lemma fromHex_bad_digit (c : ascii) (rest : string) :
  unhex c = None -> fromHex (String c rest) = [].
Proof. intros H. destruct rest; simpl; [done | by rewrite H]. Qed.

(** ** The canonical form *)

Lemma each_renderFields (K : list string) (fields : list (string * JSON)) :
  (fix each (fs : list (string * JSON)) : list (string * string) :=
     match fs with
     | [] => []
     | (k, x) :: rest => (k, SerializeJSONProperty K x) :: each rest
     end) fields = renderFields K fields.
Proof.
  induction fields as [|[k x] fs IH]; simpl; [done | by rewrite IH].
Qed.

Lemma serialize_object (K : list string) (fields : list (string * JSON)) :
  SerializeJSONProperty K (JObj fields)
  = "{" +:+ joinWith "," (members K (renderFields K fields)) +:+ "}".
Proof. simpl. by rewrite each_renderFields. Qed.

Lemma sorted_body_keys (b : CredentialBody) :
  sortStrings (objectKeys (bodyFields b)) = credentialKeys.
Proof. reflexivity. Qed.

Lemma canonicalData_signedText (b : CredentialBody) :
  canonicalData b = signedText b.
Proof.
  destruct b as [ctx id ty [iid iname ij ir it] iss exp
                   [sid pii claims amount tier jur] dec [stid sttype stc sttok]].
  destruct ij, ir, it, stc, sttok; reflexivity.
Qed.

(** ** Canonicalization does not depend on insertion order *)

(** Induction over a value with its items and properties. *)
Lemma JSON_nested_ind (P : JSON -> Prop) :
  P JNull ->
  (forall b, P (JBool b)) ->
  (forall n, P (JNum n)) ->
  (forall s, P (JStr s)) ->
  (forall items, Forall P items -> P (JArr items)) ->
  (forall fields, Forall (fun f => P f.2) fields -> P (JObj fields)) ->
  forall v, P v.
Proof.
  intros Hnull Hbool Hnum Hstr Harr Hobj.
  fix self 1.
  intros [ | b | n | s | items | fields ].
  - exact Hnull.
  - apply Hbool.
  - apply Hnum.
  - apply Hstr.
  - apply Harr. induction items as [|x items IH]; constructor; [apply self | exact IH].
  - apply Hobj. induction fields as [|[k x] fields IH]; constructor;
      [apply self | exact IH].
Qed.

Lemma getProp_Some_elem {A} (key : string) (fields : list (string * A)) (v : A) :
  NoDup (objectKeys fields) ->
  getProp key fields = Some v <-> (key, v) ∈ fields.
Proof.
  unfold objectKeys.
  induction fields as [|[k x] fs IH]; simpl; intros Hnd.
  - split; [done | by intros ?%elem_of_nil].
  - apply NoDup_cons in Hnd as [Hk Hnd].
    destruct (String.eqb_spec k key) as [->|Hne].
    + split.
      * intros [= ->]. left.
      * intros [[= <-] | Hin]%elem_of_cons; [done |].
        exfalso. apply Hk. apply list_elem_of_fmap. by exists (key, v).
    + rewrite IH by done. split.
      * by right.
      * intros [[= ? ?] | Hin]%elem_of_cons; [congruence | done].
Qed.

(** Reading a property does not depend on the order of the properties. *)
Lemma getProp_Permutation {A} (key : string) (fs gs : list (string * A)) :
  NoDup (objectKeys fs) -> fs ≡ₚ gs -> getProp key fs = getProp key gs.
Proof.
  intros Hnd Hperm.
  assert (NoDup (objectKeys gs)) as Hnd'.
  { unfold objectKeys in *. by rewrite <- Hperm. }
  apply option_eq. intros v.
  rewrite !getProp_Some_elem by done. by rewrite Hperm.
Qed.

Lemma renderFields_Permutation (K : list string) (fs gs : list (string * JSON)) :
  fs ≡ₚ gs -> renderFields K fs ≡ₚ renderFields K gs.
Proof. intros H. unfold renderFields. by rewrite H. Qed.

Lemma objectKeys_renderFields (K : list string) (fs : list (string * JSON)) :
  objectKeys (renderFields K fs) = objectKeys fs.
Proof.
  unfold objectKeys, renderFields. rewrite map_map. by apply map_ext.
Qed.

Lemma members_ext (K : list string) (fs gs : list (string * string)) :
  (forall k, getProp k fs = getProp k gs) -> members K fs = members K gs.
Proof.
  intros H. unfold members. apply list_omap_ext.
  induction K as [|k K IH]; constructor; [by rewrite H | done].
Qed.

(** Under one property list, two values that differ only in the order of
    their properties are serialized alike. *)
Lemma serialize_sameValue (K : list string) (a : JSON) :
  wellFormed a -> forall b, sameValue a b ->
  SerializeJSONProperty K a = SerializeJSONProperty K b.
Proof.
  induction a as [ | | | | items IH | fields IH ] using JSON_nested_ind;
    intros Hwf other Hsame; inversion Hsame; subst; try done.
  - (* arrays: item by item *)
    inversion Hwf as [ | | | | ? Hitems | ]; subst.
    simpl. do 3 f_equal.
    match goal with H : Forall2 sameValue _ _ |- _ => rename H into Hall end.
    clear Hwf Hsame.
    induction Hall as [|x y xs ys Hxy Hall IHall]; simpl; [done |].
    apply Forall_cons in IH as [IHx IHxs].
    apply Forall_cons in Hitems as [Hx Hxs].
    f_equal; [by apply IHx | by apply IHall].
  - (* objects: same properties, whatever their order *)
    inversion Hwf as [ | | | | | ? Hkeys Hfields ]; subst.
    match goal with
    | Hp : fields ≡ₚ ?r, H2 : Forall2 _ ?r _ |- _ =>
        rename Hp into Hperm; rename H2 into Hall
    end.
    rewrite !serialize_object. do 3 f_equal.
    apply members_ext. intros k.
    rewrite (getProp_Permutation k (renderFields K fields) (renderFields K reordered)).
    + f_equal.
      assert (Forall (fun f => forall g, sameValue f.2 g ->
                SerializeJSONProperty K f.2 = SerializeJSONProperty K g) reordered)
        as Hser.
      { rewrite <- Hperm. rewrite Forall_forall in IH, Hfields |- *.
        intros f Hf g Hfg. apply IH; [done | by apply Hfields | done]. }
      clear -Hall Hser.
      induction Hall as [|f g fs gs [Hk Hv] Hall IHall]; simpl; [done |].
      apply Forall_cons in Hser as [Hf Hfs].
      f_equal; [| by apply IHall].
      f_equal; [done | by apply Hf].
    + by rewrite objectKeys_renderFields.
    + by apply renderFields_Permutation.
Qed.

Lemma sameValue_keys (fs gs : list (string * JSON)) :
  sameValue (JObj fs) (JObj gs) -> objectKeys fs ≡ₚ objectKeys gs.
Proof.
  intros Hsame. inversion Hsame as [ | | | | | ? reordered ? Hperm Hall ]; subst.
  unfold objectKeys. rewrite Hperm. clear -Hall.
  induction Hall as [|f g fs gs [Hk Hv] Hall IHall]; simpl; [done |].
  by rewrite Hk, IHall.
Qed.

(** Sorting forgets the order the names came in. *)
Lemma sortStrings_Permutation (l1 l2 : list string) :
  l1 ≡ₚ l2 -> sortStrings l1 = sortStrings l2.
Proof.
  intros Hperm. unfold sortStrings.
  apply (Sorted_unique String.le).
  - apply Sorted_merge_sort, _.
  - apply Sorted_merge_sort, _.
  - by rewrite !merge_sort_Permutation.
Qed.

(** C3. Two structurally equal payloads, whose objects list the same
    properties with the same values in possibly different insertion
    orders at any depth, have the same canonical serialization: the text
    [JSON.stringify(o, Object.keys(o).sort())] that [issueCredential]
    signs and [verifyCredential] checks. *)
Theorem canonicalize_insertion_order (fs gs : list (string * JSON)) :
  wellFormed (JObj fs) ->
  sameValue (JObj fs) (JObj gs) ->
  canonicalize fs = canonicalize gs.
Proof.
  intros Hwf Hsame. unfold canonicalize.
  rewrite (sortStrings_Permutation _ _ (sameValue_keys _ _ Hsame)).
  by apply serialize_sameValue.
Qed.

Lemma canonicalize_insertion_order_witness :
  wellFormed (JObj Sample.payload)
  /\ sameValue (JObj Sample.payload) (JObj Sample.payloadReordered)
  /\ canonicalize Sample.payload = canonicalize Sample.payloadReordered.
Proof.
  assert (wellFormed (JObj Sample.payload)) as Hwf by build_value.
  assert (sameValue (JObj Sample.payload) (JObj Sample.payloadReordered)) as Hsame.
  { apply (same_obj _ Sample.payloadStep).
    - unfold Sample.payload, Sample.payloadStep. solve_Permutation.
    - constructor; [split; [reflexivity | constructor] |].
      constructor; [split; [reflexivity |] | build_value].
      apply (same_obj _ [("name", JStr "JPMorgan Chase Bank, N.A.");
                         ("id", JStr "did:did3:bank:jpmorgan")]);
        [apply perm_swap | build_value]. }
  split; [exact Hwf | split; [exact Hsame |]].
  exact (canonicalize_insertion_order _ _ Hwf Hsame).
Defined.

(** ** Running the model on the test data *)

Example issue_bob :
  Sample.issue (Sample.request "KYC-002") = Ok Sample.bobCredential.
Proof. vm_compute. reflexivity. Qed.

Example issue_bob_overridden :
  Sample.issue (withAlgorithm (Some "secp256k1") (Sample.request "KYC-002"))
  = Ok Sample.bobOverridden.
Proof. vm_compute. reflexivity. Qed.

Example sample_registry_keyed : keyedByDid Sample.registry.
Proof.
  intros did issuer. unfold Sample.registry.
  rewrite !lookup_insert. repeat case_decide; subst; intros [= <-] || done; done.
Qed.

(** ** Verification *)

Section Verification.
Variable rt : Runtime.
Variable registry : gmap string BankIssuer.

Lemma verifySignature_unsupported (data signature publicKey algorithm : string) :
  algorithm <> "Ed25519" -> algorithm <> "secp256k1" ->
  verifySignature rt data signature publicKey algorithm
  = Throw (UnsupportedAlgorithm algorithm).
Proof.
  intros H1 H2. unfold verifySignature.
  destruct (String.eqb_spec algorithm "Ed25519"); [done |].
  destruct (String.eqb_spec algorithm "secp256k1"); done.
Qed.

(** With a recognized algorithm the check answers; it does not throw. *)
Lemma verifySignature_recognized (data signature publicKey algorithm : string) :
  algorithm = "Ed25519" \/ algorithm = "secp256k1" ->
  exists answer,
    verifySignature rt data signature publicKey algorithm = Ok answer.
Proof. intros [-> | ->]; eexists; reflexivity. Qed.

Lemma verify_unknown_issuer (now : Z) (c : VerifiableCredential) :
  getIssuerByDid registry (doc_id (vc_issuer (vc_body c))) = None ->
  verifyCredential rt registry now c
  = {| valid := false;
       errors := stateErrors rt now (vc_body c) ++ [UnknownIssuer] |}.
Proof.
  intros H. unfold verifyCredential, stateErrors. rewrite H.
  by destruct (laterThan now _), (vc_decommissionedAt (vc_body c)).
Qed.

Lemma verify_known_issuer (now : Z) (c : VerifiableCredential) (issuer : BankIssuer) :
  getIssuerByDid registry (doc_id (vc_issuer (vc_body c))) = Some issuer ->
  let check :=
    verifySignature rt (canonicalData (vc_body c)) (pf_proofValue (vc_proof c))
      (bi_publicKey issuer) (bi_signatureAlgorithm issuer) in
  verifyCredential rt registry now c
  = {| valid :=
         bool_decide (stateErrors rt now (vc_body c) = [])
         && accepted check;
       errors := stateErrors rt now (vc_body c) ++ signatureErrors check |}.
Proof.
  intros H check. unfold verifyCredential, stateErrors. rewrite H. fold check.
  destruct check as [[|]|message], (laterThan now _),
    (vc_decommissionedAt (vc_body c)); reflexivity.
Qed.

Lemma stateErrors_expired (now : Z) (b : CredentialBody) :
  Expired ∈ stateErrors rt now b
  <-> laterThan now (dateParse rt (vc_expirationDate b)) = true.
Proof.
  unfold stateErrors.
  destruct (laterThan now _), (vc_decommissionedAt b); simpl; split;
    try done; intros Hin; try (by left);
    repeat (apply elem_of_cons in Hin as [Hin | Hin]; [done |]);
    by apply elem_of_nil in Hin.
Qed.

Lemma stateErrors_revoked (now : Z) (b : CredentialBody) :
  Revoked ∈ stateErrors rt now b <-> vc_decommissionedAt b <> None.
Proof.
  unfold stateErrors.
  destruct (laterThan now _), (vc_decommissionedAt b); simpl; split;
    try done; intros Hin; try (by repeat constructor);
    repeat (apply elem_of_cons in Hin as [Hin | Hin]; [done |]);
    by apply elem_of_nil in Hin.
Qed.

(** What follows the state entries is never an [Expired] entry. *)
Lemma signatureErrors_not_expired (r : result bool) :
  Expired ∉ signatureErrors r.
Proof.
  destruct r as [[|]|message]; simpl; intros Hin;
    repeat (apply elem_of_cons in Hin as [Hin | Hin]; [done |]);
    by apply elem_of_nil in Hin.
Qed.

Lemma verify_expired_entry (now : Z) (c : VerifiableCredential) :
  Expired ∈ errors (verifyCredential rt registry now c)
  <-> laterThan now (dateParse rt (vc_expirationDate (vc_body c))) = true.
Proof.
  rewrite <- stateErrors_expired.
  destruct (getIssuerByDid registry (doc_id (vc_issuer (vc_body c))))
    as [issuer|] eqn:Hissuer.
  - rewrite (verify_known_issuer now c issuer Hissuer). simpl.
    rewrite elem_of_app. split; [| by left].
    intros [H | H]; [done | by apply signatureErrors_not_expired in H].
  - rewrite (verify_unknown_issuer now c Hissuer). simpl.
    rewrite elem_of_app. split; [| by left].
    intros [H | H]; [done |].
    apply elem_of_cons in H as [H | H]; [done | by apply elem_of_nil in H].
Qed.

(** C6. When the current time equals the expiration date there is no
    [Expired] entry, and the credential verifies if nothing else is
    wrong with it; when the current time is past the expiration date
    there is an [Expired] entry. *)
Theorem expiration_boundary (now expiry : Z) (c : VerifiableCredential) :
  dateParse rt (vc_expirationDate (vc_body c)) = Some expiry ->
  (now = expiry -> Expired ∉ errors (verifyCredential rt registry now c))
  /\ (now = expiry ->
      vc_decommissionedAt (vc_body c) = None ->
      forall issuer,
        getIssuerByDid registry (doc_id (vc_issuer (vc_body c))) = Some issuer ->
        verifySignature rt (canonicalData (vc_body c)) (pf_proofValue (vc_proof c))
          (bi_publicKey issuer) (bi_signatureAlgorithm issuer) = Ok true ->
        verifyCredential rt registry now c = {| valid := true; errors := [] |})
  /\ (expiry < now -> Expired ∈ errors (verifyCredential rt registry now c)).
Proof.
  intros Hparse. split; [| split].
  - intros ->. rewrite verify_expired_entry, Hparse. simpl.
    rewrite Z.ltb_irrefl. done.
  - intros -> Hactive issuer Hissuer Hcheck.
    rewrite (verify_known_issuer expiry c issuer Hissuer). simpl.
    rewrite Hcheck. unfold stateErrors.
    rewrite Hparse, Hactive. simpl. rewrite Z.ltb_irrefl. done.
  - intros Hlt. rewrite verify_expired_entry, Hparse. simpl.
    by apply Z.ltb_lt.
Qed.

(** C4, as the code has it.  When the issuer cannot be resolved the
    result is invalid and the error list is the expiration and
    revocation entries, if any, followed by [UnknownIssuer]; the
    signature plays no part.  When the issuer is resolved the list is
    the same entries followed by what the signature check adds. *)
Theorem verify_error_accumulation (now : Z) (c : VerifiableCredential) :
  (getIssuerByDid registry (doc_id (vc_issuer (vc_body c))) = None ->
   verifyCredential rt registry now c
   = {| valid := false;
        errors := stateErrors rt now (vc_body c) ++ [UnknownIssuer] |})
  /\ (forall issuer,
        getIssuerByDid registry (doc_id (vc_issuer (vc_body c))) = Some issuer ->
        errors (verifyCredential rt registry now c)
        = stateErrors rt now (vc_body c)
          ++ signatureErrors
               (verifySignature rt (canonicalData (vc_body c))
                  (pf_proofValue (vc_proof c))
                  (bi_publicKey issuer) (bi_signatureAlgorithm issuer))).
Proof.
  split.
  - apply verify_unknown_issuer.
  - intros issuer Hissuer. by rewrite (verify_known_issuer now c issuer Hissuer).
Qed.

(** The claims, the verified amount and the tier are not part of the
    text that is signed. *)
Lemma canonicalData_tamperSubject (claims : KYCClaims) (amount : AmountVerification)
    (tier : Z) (c : VerifiableCredential) :
  canonicalData (vc_body (tamperSubject claims amount tier c))
  = canonicalData (vc_body c).
Proof. by rewrite !canonicalData_signedText. Qed.

Lemma verify_tamperSubject (now : Z) (claims : KYCClaims)
    (amount : AmountVerification) (tier : Z) (c : VerifiableCredential) :
  verifyCredential rt registry now (tamperSubject claims amount tier c)
  = verifyCredential rt registry now c.
Proof.
  unfold verifyCredential.
  rewrite canonicalData_tamperSubject. reflexivity.
Qed.

(** C1, at the code.  A credential that verifies still verifies, with
    no error, after its claims, verified amount and tier have been
    replaced by any others. *)
Theorem tampered_subject_still_verifies (now : Z) (claims : KYCClaims)
    (amount : AmountVerification) (tier : Z) (c : VerifiableCredential) :
  valid (verifyCredential rt registry now c) = true ->
  verifyCredential rt registry now (tamperSubject claims amount tier c)
  = {| valid := true; errors := [] |}.
Proof.
  intros Hvalid. rewrite verify_tamperSubject.
  destruct (getIssuerByDid registry (doc_id (vc_issuer (vc_body c))))
    as [issuer|] eqn:Hissuer.
  - rewrite (verify_known_issuer now c issuer Hissuer) in Hvalid |- *.
    simpl in Hvalid. apply andb_true_iff in Hvalid as [Hstate Hcheck].
    apply bool_decide_eq_true in Hstate. rewrite Hstate. simpl.
    destruct (verifySignature _ _ _ _ _) as [[|]|message]; done.
  - by rewrite (verify_unknown_issuer now c Hissuer) in Hvalid.
Qed.

End Verification.

(** ** Witnesses on the test data *)

Lemma expiration_boundary_witness :
  dateParse Sample.runtime (vc_expirationDate (vc_body Sample.bobCredential))
  = Some Sample.tExpiry
  /\ Sample.verify Sample.tExpiry Sample.bobCredential
     = {| valid := true; errors := [] |}
  /\ Expired ∈ errors (Sample.verify (Sample.tExpiry + 1) Sample.bobCredential).
Proof.
  assert (dateParse Sample.runtime (vc_expirationDate (vc_body Sample.bobCredential))
          = Some Sample.tExpiry) as Hparse by (vm_compute; reflexivity).
  split; [exact Hparse | split].
  - apply (proj1 (proj2 (expiration_boundary Sample.runtime Sample.registry
                           Sample.tExpiry Sample.tExpiry _ Hparse)))
      with (issuer := Sample.jpmorgan); vm_compute; reflexivity.
  - apply (proj2 (proj2 (expiration_boundary Sample.runtime Sample.registry
                           (Sample.tExpiry + 1) Sample.tExpiry _ Hparse))).
    vm_compute. reflexivity.
Defined.

(** C4 as stated fails: an expired, revoked credential of an unknown
    issuer gets three entries, not the single [UnknownIssuer]. *)
Lemma unknown_issuer_is_not_alone :
  getIssuerByDid Sample.registry
    (doc_id (vc_issuer (vc_body Sample.strangerCredential))) = None
  /\ Sample.verify (Sample.tExpiry + 1)
       (revokeCredential Sample.runtime Sample.t0 Sample.strangerCredential)
     = {| valid := false; errors := [Expired; Revoked; UnknownIssuer] |}.
Proof. split; vm_compute; reflexivity. Qed.

Lemma verify_error_accumulation_witness :
  getIssuerByDid Sample.registry
    (doc_id (vc_issuer (vc_body Sample.strangerCredential))) = None
  /\ Sample.verify Sample.t0 Sample.strangerCredential
     = {| valid := false; errors := [UnknownIssuer] |}
  /\ errors (Sample.verify (Sample.tExpiry + 1) Sample.bobOverridden)
     = [Expired; InvalidSignature].
Proof.
  unfold Sample.verify.
  split; [vm_compute; reflexivity | split].
  - rewrite (proj1 (verify_error_accumulation Sample.runtime Sample.registry
                      Sample.t0 Sample.strangerCredential));
      vm_compute; reflexivity.
  - rewrite (proj2 (verify_error_accumulation Sample.runtime Sample.registry
                      (Sample.tExpiry + 1) Sample.bobOverridden) Sample.jpmorgan);
      vm_compute; reflexivity.
Defined.

Lemma tampered_subject_still_verifies_witness :
  valid (Sample.verify Sample.t0 Sample.bobCredential) = true
  /\ Sample.verify Sample.t0
       (tamperSubject Sample.raisedClaims Sample.raisedAmount 2 Sample.bobCredential)
     = {| valid := true; errors := [] |}.
Proof.
  assert (valid (Sample.verify Sample.t0 Sample.bobCredential) = true) as Hvalid
    by (vm_compute; reflexivity).
  split; [exact Hvalid |].
  exact (tampered_subject_still_verifies Sample.runtime Sample.registry Sample.t0
           Sample.raisedClaims Sample.raisedAmount 2 Sample.bobCredential Hvalid).
Defined.

(** ** Issuance *)

Section Issuance.
Variable rt : Runtime.
Variable registry : gmap string BankIssuer.
Variable kycDatabase : gmap string CustomerKYCData.

Lemma dateToISOString_Ok (d : option Z) (text : string) :
  dateToISOString rt d = Ok text ->
  exists t, d = Some t /\ text = toISOString rt t.
Proof. destruct d as [t|]; [intros [= <-]; by exists t | done]. Qed.

Lemma timeClip_Some (t u : Z) : timeClip t = Some u -> u = t.
Proof. unfold timeClip. case_match; congruence. Qed.

(** What a returned credential says about the call that made it. *)
Lemma issueCredential_Ok (rd : Readings) (request : IssueCredentialRequest)
    (cred : VerifiableCredential) :
  issueCredential rt registry kycDatabase rd request = Ok cred ->
  exists issuer kycData,
    getIssuerByDid registry (req_issuerDid request) = Some issuer
    /\ getCustomerKYC kycDatabase (req_customerKycId request) = Some kycData
    /\ failsScreening kycData = false
    /\ doc_id (vc_issuer (vc_body cred)) = bi_did issuer
    /\ vc_decommissionedAt (vc_body cred) = None
    /\ vc_issuanceDate (vc_body cred) = toISOString rt (rd_now rd)
    /\ vc_expirationDate (vc_body cred)
       = toISOString rt (rd_now rd + expiryDaysOf request * msPerDay)
    /\ signCredential rt (canonicalData (vc_body cred)) (bi_privateKey issuer)
         (signingAlgorithm request issuer)
       = Ok (pf_proofValue (vc_proof cred))
    /\ cs_tier (vc_credentialSubject (vc_body cred)) = kyc_tier kycData.
Proof.
  unfold issueCredential. intros H.
  destruct (getIssuerByDid registry (req_issuerDid request)) as [issuer|]; [| done].
  destruct (getCustomerKYC kycDatabase (req_customerKycId request))
    as [kycData|]; [| done].
  fold (failsScreening kycData) in H. fold (expiryDaysOf request) in H.
  destruct (failsScreening kycData) eqn:Hscreen; [done |].
  destruct (negb (String.eqb _ _)); [done |].
  destruct (negb (Bool.eqb _ _)); [done |].
  destruct (dateToISOString rt _) as [expirationISO|] eqn:Hdate; [| done].
  apply dateToISOString_Ok in Hdate as (t & Hclip & ->).
  apply timeClip_Some in Hclip as ->.
  simpl in H.
  destruct (signCredential rt _ _ _) as [proofValue|] eqn:Hsign; [| done].
  simpl in H. injection H as <-.
  exists issuer, kycData. simpl. repeat split; try done.
Qed.


Lemma failsScreening_true (kycData : CustomerKYCData) :
  kyc_amlScreening kycData <> "passed"
  \/ kyc_sanctionsCheck kycData <> "passed"
  \/ kyc_pepScreening kycData <> "passed" ->
  failsScreening kycData = true.
Proof.
  unfold failsScreening.
  destruct (String.eqb_spec (kyc_amlScreening kycData) "passed");
    destruct (String.eqb_spec (kyc_sanctionsCheck kycData) "passed");
    destruct (String.eqb_spec (kyc_pepScreening kycData) "passed");
    simpl; intuition.
Qed.

(** C5, as the code has it.  Whatever else the request and the record
    say, a record with a screening other than ['passed'] makes the
    call fail: with the invalid-issuer error when the issuer is
    unknown, and otherwise with the one fixed compliance error, before
    the level and the accreditation flag are compared. *)
Theorem compliance_gate (rd : Readings) (request : IssueCredentialRequest)
    (kycData : CustomerKYCData) :
  getCustomerKYC kycDatabase (req_customerKycId request) = Some kycData ->
  kyc_amlScreening kycData <> "passed"
  \/ kyc_sanctionsCheck kycData <> "passed"
  \/ kyc_pepScreening kycData <> "passed" ->
  issueCredential rt registry kycDatabase rd request
  = match getIssuerByDid registry (req_issuerDid request) with
    | None => Throw ("Invalid issuer DID: " +:+ req_issuerDid request)
    | Some _ => Throw ComplianceCheckFailed
    end.
Proof.
  intros Hkyc Hfails. unfold issueCredential.
  destruct (getIssuerByDid registry (req_issuerDid request)); [| done].
  rewrite Hkyc. fold (failsScreening kycData).
  by rewrite (failsScreening_true _ Hfails).
Qed.

(** An unknown customer is reported once the issuer is known. *)
Lemma unknown_customer (rd : Readings) (request : IssueCredentialRequest)
    (issuer : BankIssuer) :
  getIssuerByDid registry (req_issuerDid request) = Some issuer ->
  getCustomerKYC kycDatabase (req_customerKycId request) = None ->
  issueCredential rt registry kycDatabase rd request
  = Throw ("Customer not found: " +:+ req_customerKycId request).
Proof. intros Hi Hk. unfold issueCredential. by rewrite Hi, Hk. Qed.

End Issuance.


(** C5 as stated fails: a failed sanctions check and a failed AML
    screening are reported with the same words, which name neither. *)
Lemma compliance_error_names_no_check :
  failedChecks Sample.sanctioned = ["sanctionsCheck"]
  /\ failedChecks Sample.amlFailed = ["amlScreening"]
  /\ Sample.issue (Sample.request "KYC-900")
     = Throw "Customer has not passed all required KYC checks"
  /\ Sample.issue (Sample.request "KYC-901")
     = Throw "Customer has not passed all required KYC checks".
Proof. repeat split; vm_compute; reflexivity. Qed.

Lemma compliance_gate_witness :
  getCustomerKYC Sample.kycDatabase
    (req_customerKycId (Sample.request "KYC-900")) = Some Sample.sanctioned
  /\ kyc_sanctionsCheck Sample.sanctioned = "failed"
  /\ Sample.issue (Sample.request "KYC-900") = Throw ComplianceCheckFailed.
Proof.
  assert (getCustomerKYC Sample.kycDatabase
            (req_customerKycId (Sample.request "KYC-900")) = Some Sample.sanctioned)
    as Hkyc by (vm_compute; reflexivity).
  split; [exact Hkyc | split; [reflexivity |]].
  unfold Sample.issue.
  rewrite (compliance_gate Sample.runtime Sample.registry Sample.kycDatabase
             Sample.readings (Sample.request "KYC-900") Sample.sanctioned Hkyc).
  - vm_compute. reflexivity.
  - right. left. vm_compute. discriminate.
Defined.

(** ** Revocation and the signature *)

Lemma append_cons (c : ascii) (a b : string) :
  String c a +:+ b = String c (a +:+ b).
Proof. reflexivity. Qed.

Lemma signedText_marker (b : CredentialBody) :
  signedText b
  = textBeforeMarker b
    +:+ SerializeJSONProperty credentialKeys (jsonOfNullable (vc_decommissionedAt b))
    +:+ textAfterMarker b.
Proof.
  unfold signedText, textBeforeMarker, textAfterMarker, braces, member.
  cbn [joinWith]. rewrite !append_assoc. reflexivity.
Qed.

(** The text of a revoked credential is not the text of the same
    credential with the marker still null. *)
Lemma marker_changes_text (b b' : CredentialBody) (stamp : string) :
  textBeforeMarker b' = textBeforeMarker b ->
  vc_decommissionedAt b = None ->
  vc_decommissionedAt b' = Some stamp ->
  canonicalData b' <> canonicalData b.
Proof.
  intros Hbefore Hnull Hstamp.
  rewrite !canonicalData_signedText, !signedText_marker.
  rewrite Hbefore, Hnull, Hstamp. intros Heq.
  apply (inj (String.append (textBeforeMarker b))) in Heq.
  discriminate Heq.
Qed.

Section Revocation.
Variable rt : Runtime.
Variable registry : gmap string BankIssuer.
Variable kycDatabase : gmap string CustomerKYCData.

(** Whether [verifySignature] throws depends on the algorithm alone. *)
Lemma verifySignature_answers (d s k d' s' k' algorithm : string) (answer : bool) :
  verifySignature rt d s k algorithm = Ok answer ->
  exists answer', verifySignature rt d' s' k' algorithm = Ok answer'.
Proof.
  unfold verifySignature.
  destruct (String.eqb algorithm "Ed25519"); [by eexists |].
  destruct (String.eqb algorithm "secp256k1"); [by eexists | done].
Qed.

Lemma valid_true (now : Z) (c : VerifiableCredential) :
  valid (verifyCredential rt registry now c) = true ->
  exists issuer,
    getIssuerByDid registry (doc_id (vc_issuer (vc_body c))) = Some issuer
    /\ stateErrors rt now (vc_body c) = []
    /\ verifySignature rt (canonicalData (vc_body c)) (pf_proofValue (vc_proof c))
         (bi_publicKey issuer) (bi_signatureAlgorithm issuer) = Ok true.
Proof.
  intros Hvalid.
  destruct (getIssuerByDid registry (doc_id (vc_issuer (vc_body c))))
    as [issuer|] eqn:Hissuer.
  - rewrite (verify_known_issuer rt registry now c issuer Hissuer) in Hvalid.
    simpl in Hvalid. apply andb_true_iff in Hvalid as [Hstate Hcheck].
    apply bool_decide_eq_true in Hstate.
    exists issuer. split; [done | split; [done |]].
    by destruct (verifySignature _ _ _ _ _) as [[|]|message].
  - by rewrite (verify_unknown_issuer rt registry now c Hissuer) in Hvalid.
Qed.

(** C9. The text signed at issuance carries [decommissionedAt] with the
    value null, between [textBeforeMarker], which ends with the quoted
    property name and a colon, and [textAfterMarker].  So when a
    credential verifies, the copy that [revokeCredential] returns has
    another text and, the signature not carrying over to that text,
    does not verify: its errors include [Revoked] and
    [InvalidSignature]. *)
Theorem revoked_copy_fails_signature :
  (forall rd request cred,
     issueCredential rt registry kycDatabase rd request = Ok cred ->
     canonicalData (vc_body cred)
     = textBeforeMarker (vc_body cred) +:+ "null" +:+ textAfterMarker (vc_body cred)
     /\ exists issuer,
          signCredential rt (canonicalData (vc_body cred)) (bi_privateKey issuer)
            (signingAlgorithm request issuer)
          = Ok (pf_proofValue (vc_proof cred)))
  /\ (forall now later stamp cred,
        valid (verifyCredential rt registry now cred) = true ->
        signatureBoundTo rt registry cred
          (canonicalData (vc_body (revokeCredential rt stamp cred))) ->
        let r := verifyCredential rt registry later (revokeCredential rt stamp cred) in
        valid r = false /\ Revoked ∈ errors r /\ InvalidSignature ∈ errors r).
Proof.
  split.
  - intros rd request cred Hissue.
    apply issueCredential_Ok in Hissue
      as (issuer & kycData & _ & _ & _ & _ & Hnull & _ & _ & Hsign & _).
    split; [| by exists issuer].
    by rewrite canonicalData_signedText, signedText_marker, Hnull.
  - intros now later stamp cred Hvalid Hbinds r.
    apply valid_true in Hvalid as (issuer & Hissuer & Hstate & Hcheck).
    assert (vc_decommissionedAt (vc_body cred) = None) as Hnull.
    { destruct (vc_decommissionedAt (vc_body cred)) eqn:Hd; [| done].
      assert (Revoked ∈ stateErrors rt now (vc_body cred)) as Hin
        by (apply stateErrors_revoked; congruence).
      rewrite Hstate in Hin. by apply elem_of_nil in Hin. }
    set (revoked := revokeCredential rt stamp cred) in *.
    assert (getIssuerByDid registry (doc_id (vc_issuer (vc_body revoked)))
            = Some issuer) as Hissuer' by done.
    assert (Revoked ∈ stateErrors rt later (vc_body revoked)) as Hrev
      by (by apply stateErrors_revoked).
    subst r. rewrite (verify_known_issuer rt registry later revoked issuer Hissuer').
    destruct (verifySignature_answers _ _ _
                (canonicalData (vc_body revoked)) (pf_proofValue (vc_proof revoked))
                (bi_publicKey issuer) _ _ Hcheck) as [answer Hanswer].
    cbv zeta. rewrite Hanswer. destruct answer.
    + exfalso.
      apply (marker_changes_text (vc_body cred) (vc_body revoked)
               (toISOString rt stamp)); [done | done | done |].
      by apply (Hbinds issuer).
    + simpl. split; [by rewrite andb_false_r |].
      rewrite !elem_of_app. split; [by left | right; by left].
Qed.

End Revocation.

(** The stand-in schemes accept a signature for one text only. *)
Lemma sample_signature_for_one_text (d d' s pk algorithm : string) :
  verifySignature Sample.runtime d s pk algorithm = Ok true ->
  verifySignature Sample.runtime d' s pk algorithm = Ok true ->
  d = d'.
Proof.
  unfold verifySignature, verifyEd25519, verifySecp256k1, sha256Hash. simpl.
  destruct (String.eqb algorithm "Ed25519").
  - intros [= H] [= H']. apply bool_decide_eq_true in H, H'.
    rewrite H, !fromHex_toHex in H'. apply app_inv_head in H'.
    rewrite <- (string_of_list_byte_of_string d),
            <- (string_of_list_byte_of_string d').
    by rewrite H'.
  - destruct (String.eqb algorithm "secp256k1"); [| done].
    intros [= H] [= H']. apply String.eqb_eq in H, H'.
    rewrite H in H'. do 2 apply (inj (String.append _)) in H'.
    apply (f_equal fromHex) in H'. rewrite !fromHex_toHex in H'.
    rewrite <- (string_of_list_byte_of_string d),
            <- (string_of_list_byte_of_string d').
    by rewrite H'.
Qed.

Lemma sample_bob_binds (other : string) :
  signatureBoundTo Sample.runtime Sample.registry Sample.bobCredential other.
Proof.
  intros issuer Hissuer Hcheck.
  vm_compute in Hissuer. injection Hissuer as <-.
  apply (sample_signature_for_one_text _ _ _ _ _ Hcheck).
  vm_compute. reflexivity.
Qed.

Lemma revoked_copy_fails_signature_witness :
  valid (Sample.verify Sample.t0 Sample.bobCredential) = true
  /\ signatureBoundTo Sample.runtime Sample.registry Sample.bobCredential
       (canonicalData
          (vc_body (revokeCredential Sample.runtime Sample.t0 Sample.bobCredential)))
  /\ canonicalData (vc_body Sample.bobCredential)
     = textBeforeMarker (vc_body Sample.bobCredential)
       +:+ "null" +:+ textAfterMarker (vc_body Sample.bobCredential)
  /\ (let r := Sample.verify (Sample.t0 + 1)
                 (revokeCredential Sample.runtime Sample.t0 Sample.bobCredential) in
      valid r = false /\ Revoked ∈ errors r /\ InvalidSignature ∈ errors r).
Proof.
  assert (valid (Sample.verify Sample.t0 Sample.bobCredential) = true) as Hvalid
    by (vm_compute; reflexivity).
  pose proof (revoked_copy_fails_signature Sample.runtime Sample.registry
                Sample.kycDatabase) as [Hsigned Hrevoked].
  split; [exact Hvalid | split; [exact (sample_bob_binds _) | split]].
  - exact (proj1 (Hsigned Sample.readings (Sample.request "KYC-002")
                    Sample.bobCredential issue_bob)).
  - exact (Hrevoked Sample.t0 (Sample.t0 + 1) Sample.t0 Sample.bobCredential
             Hvalid (sample_bob_binds _)).
Defined.

(** ** Round trip *)

Section RoundTrip.
Variable rt : Runtime.
Variable registry : gmap string BankIssuer.
Variable kycDatabase : gmap string CustomerKYCData.

Lemma issued_issuer_resolves (rd : Readings) (request : IssueCredentialRequest)
    (cred : VerifiableCredential) (issuer : BankIssuer) :
  keyedByDid registry ->
  getIssuerByDid registry (req_issuerDid request) = Some issuer ->
  issueCredential rt registry kycDatabase rd request = Ok cred ->
  getIssuerByDid registry (doc_id (vc_issuer (vc_body cred))) = Some issuer
  /\ vc_decommissionedAt (vc_body cred) = None
  /\ vc_expirationDate (vc_body cred)
     = toISOString rt (rd_now rd + expiryDaysOf request * msPerDay)
  /\ signCredential rt (canonicalData (vc_body cred)) (bi_privateKey issuer)
       (signingAlgorithm request issuer)
     = Ok (pf_proofValue (vc_proof cred)).
Proof.
  intros Hkeyed Hissuer Hissue.
  apply issueCredential_Ok in Hissue
    as (issuer' & kycData & Hissuer' & _ & _ & Hid & Hnull & _ & Hexp & Hsign & _).
  rewrite Hissuer in Hissuer'. injection Hissuer' as <-.
  rewrite Hid. unfold getIssuerByDid in *.
  by rewrite (Hkeyed _ _ Hissuer).
Qed.

(** The round trip, when the credential is signed with the algorithm
    the issuer declares, has not yet expired, its expiration date reads
    back as written, and the scheme accepts what it signed. *)
Lemma round_trip_declared_algorithm (rd : Readings) (request : IssueCredentialRequest)
    (cred : VerifiableCredential) (issuer : BankIssuer) (now : Z) :
  keyedByDid registry ->
  getIssuerByDid registry (req_issuerDid request) = Some issuer ->
  signingAlgorithm request issuer = bi_signatureAlgorithm issuer ->
  (forall data signature,
     signCredential rt data (bi_privateKey issuer) (bi_signatureAlgorithm issuer)
     = Ok signature ->
     verifySignature rt data signature (bi_publicKey issuer)
       (bi_signatureAlgorithm issuer) = Ok true) ->
  dateParse rt (toISOString rt (rd_now rd + expiryDaysOf request * msPerDay))
  = Some (rd_now rd + expiryDaysOf request * msPerDay) ->
  now <= rd_now rd + expiryDaysOf request * msPerDay ->
  issueCredential rt registry kycDatabase rd request = Ok cred ->
  verifyCredential rt registry now cred = {| valid := true; errors := [] |}.
Proof.
  intros Hkeyed Hissuer Halg Hscheme Hparse Hnow Hissue.
  destruct (issued_issuer_resolves rd request cred issuer Hkeyed Hissuer Hissue)
    as (Hres & Hnull & Hexp & Hsign).
  rewrite (verify_known_issuer rt registry now cred issuer Hres). cbv zeta.
  rewrite Halg in Hsign. rewrite (Hscheme _ _ Hsign).
  unfold stateErrors. rewrite Hexp, Hparse, Hnull. simpl.
  by rewrite (proj2 (Z.ltb_ge _ _) Hnow).
Qed.

(** C2, at the code.  When the request asks for an algorithm and the
    issuer's declared algorithm rejects what that algorithm signs, the
    credential that [issueCredential] returns never verifies:
    [verifyCredential] checks the signature under the declared
    algorithm, not under the one the proof was made with. *)
Theorem override_breaks_round_trip (rd : Readings) (request : IssueCredentialRequest)
    (cred : VerifiableCredential) (issuer : BankIssuer) (requested : string)
    (now : Z) :
  keyedByDid registry ->
  getIssuerByDid registry (req_issuerDid request) = Some issuer ->
  req_signatureAlgorithm request = Some requested ->
  requested <> "" ->
  (forall data signature,
     signCredential rt data (bi_privateKey issuer) requested = Ok signature ->
     verifySignature rt data signature (bi_publicKey issuer)
       (bi_signatureAlgorithm issuer) = Ok false) ->
  issueCredential rt registry kycDatabase rd request = Ok cred ->
  valid (verifyCredential rt registry now cred) = false
  /\ InvalidSignature ∈ errors (verifyCredential rt registry now cred).
Proof.
  intros Hkeyed Hissuer Hreq Hne Hcross Hissue.
  destruct (issued_issuer_resolves rd request cred issuer Hkeyed Hissuer Hissue)
    as (Hres & _ & _ & Hsign).
  assert (signingAlgorithm request issuer = requested) as Halg.
  { unfold signingAlgorithm, orElse. rewrite Hreq.
    by destruct (String.eqb_spec requested ""). }
  rewrite Halg in Hsign.
  rewrite (verify_known_issuer rt registry now cred issuer Hres). cbv zeta.
  rewrite (Hcross _ _ Hsign). simpl.
  split; [by rewrite andb_false_r |].
  rewrite elem_of_app. right. by left.
Qed.

End RoundTrip.

(** On the test data, the stand-in for Ed25519 rejects what the stand-in
    for secp256k1 signs. *)
Lemma sample_cross_rejects (data signature : string) :
  signCredential Sample.runtime data (bi_privateKey Sample.jpmorgan) "secp256k1"
  = Ok signature ->
  verifySignature Sample.runtime data signature (bi_publicKey Sample.jpmorgan)
    (bi_signatureAlgorithm Sample.jpmorgan) = Ok false.
Proof.
  change (Ok ("z" +:+ Sample.secpTag
              +:+ toHex (fromHex (bi_privateKey Sample.jpmorgan))
              +:+ toHex (list_byte_of_string data)) = Ok signature
          -> verifySignature Sample.runtime data signature
               (bi_publicKey Sample.jpmorgan) "Ed25519" = Ok false).
  intros [= <-]. reflexivity.
Qed.

Lemma override_breaks_round_trip_witness :
  keyedByDid Sample.registry
  /\ Sample.issue (withAlgorithm (Some "secp256k1") (Sample.request "KYC-002"))
     = Ok Sample.bobOverridden
  /\ valid (Sample.verify Sample.t0 Sample.bobOverridden) = false
  /\ InvalidSignature ∈ errors (Sample.verify Sample.t0 Sample.bobOverridden).
Proof.
  split; [exact sample_registry_keyed | split; [exact issue_bob_overridden |]].
  apply (override_breaks_round_trip Sample.runtime Sample.registry Sample.kycDatabase
           Sample.readings (withAlgorithm (Some "secp256k1") (Sample.request "KYC-002"))
           Sample.bobOverridden Sample.jpmorgan "secp256k1" Sample.t0).
  - exact sample_registry_keyed.
  - vm_compute. reflexivity.
  - reflexivity.
  - discriminate.
  - exact sample_cross_rejects.
  - exact issue_bob_overridden.
Defined.

(** On the test data the round trip holds when no algorithm is requested. *)
Example round_trip_bob :
  Sample.verify Sample.t0 Sample.bobCredential = {| valid := true; errors := [] |}.
Proof.
  apply (round_trip_declared_algorithm Sample.runtime Sample.registry
           Sample.kycDatabase Sample.readings (Sample.request "KYC-002")
           Sample.bobCredential Sample.jpmorgan Sample.t0).
  - exact sample_registry_keyed.
  - vm_compute. reflexivity.
  - reflexivity.
  - intros data signature.
    change (Ok ("z" +:+ toHex (fromHex (bi_privateKey Sample.jpmorgan)
                               ++ fromHex (toHex (list_byte_of_string data))))
            = Ok signature
            -> verifySignature Sample.runtime data signature
                 (bi_publicKey Sample.jpmorgan) "Ed25519" = Ok true).
    intros [= <-].
    change (Ok (bool_decide
                  (fromHex (toHex (fromHex (bi_privateKey Sample.jpmorgan)
                                   ++ fromHex (toHex (list_byte_of_string data))))
                   = rev (fromHex (bi_publicKey Sample.jpmorgan))
                     ++ fromHex (toHex (list_byte_of_string data))))
            = Ok true).
    f_equal. apply bool_decide_eq_true. by rewrite fromHex_toHex.
  - vm_compute. reflexivity.
  - vm_compute. discriminate.
  - exact issue_bob.
Qed.

(** ** Malformed signatures *)

Section Signatures.
Variable rt : Runtime.

(** Whatever follows the hex digits of the signature is ignored by the
    Ed25519 path, when [Buffer.from] stops there. *)
Lemma verifyEd25519_trailing (data publicKey junk : string) (signature : list byte) :
  fromHex junk = [] ->
  verifyEd25519 rt data ("z" +:+ toHex signature +:+ junk) publicKey
  = verifyEd25519 rt data ("z" +:+ toHex signature) publicKey.
Proof.
  intros Hjunk. unfold verifyEd25519.
  change (slice1 ("z" +:+ toHex signature +:+ junk)) with (toHex signature +:+ junk).
  change (slice1 ("z" +:+ toHex signature)) with (toHex signature).
  by rewrite fromHex_toHex_app, Hjunk, app_nil_r, fromHex_toHex.
Qed.

(** The first character is dropped unread. *)
Lemma verifyEd25519_prefix (data publicKey rest : string) (c c' : ascii) :
  verifyEd25519 rt data (String c rest) publicKey
  = verifyEd25519 rt data (String c' rest) publicKey.
Proof. reflexivity. Qed.

(** The answer of the secp256k1 path is the library's, or false when
    the library throws. *)
Lemma verifySecp256k1_fails_closed (data signature publicKey message : string) :
  secp256k1_verify rt (slice1 signature) (sha256Hash rt data) (fromHex publicKey)
  = Throw message ->
  verifySecp256k1 rt data signature publicKey = false.
Proof. intros H. unfold verifySecp256k1. by rewrite H. Qed.

Lemma verifyEd25519_fails_closed (data signature publicKey message : string) :
  ed25519_verify rt (fromHex (slice1 signature)) (fromHex (sha256Hash rt data))
    (fromHex publicKey) = Throw message ->
  verifyEd25519 rt data signature publicKey = false.
Proof. intros H. unfold verifyEd25519. by rewrite H. Qed.

(** C7, at the code.  A signature string that is accepted under
    Ed25519 is still accepted after characters are appended to it that
    [Buffer.from(_, 'hex')] drops: a lone trailing character, or
    anything that starts with a character that is not a hex digit. *)
Theorem ed25519_accepts_padded_signature (data publicKey junk : string)
    (signature : list byte) :
  fromHex junk = [] ->
  verifySignature rt data ("z" +:+ toHex signature) publicKey "Ed25519" = Ok true ->
  verifySignature rt data ("z" +:+ toHex signature +:+ junk) publicKey "Ed25519"
  = Ok true.
Proof.
  intros Hjunk. unfold verifySignature.
  change (String.eqb "Ed25519" "Ed25519") with true. cbv iota.
  by rewrite verifyEd25519_trailing.
Qed.

End Signatures.

Lemma ed25519_accepts_padded_signature_witness :
  fromHex "0" = []
  /\ fromHex "zz" = []
  /\ verifySignature Sample.runtime (canonicalData Sample.bobBody)
       ("z" +:+ toHex Sample.bobSignature) (bi_publicKey Sample.jpmorgan) "Ed25519"
     = Ok true
  /\ verifySignature Sample.runtime (canonicalData Sample.bobBody)
       ("z" +:+ toHex Sample.bobSignature +:+ "0") (bi_publicKey Sample.jpmorgan)
       "Ed25519"
     = Ok true
  /\ verifySignature Sample.runtime (canonicalData Sample.bobBody)
       ("z" +:+ toHex Sample.bobSignature +:+ "zz") (bi_publicKey Sample.jpmorgan)
       "Ed25519"
     = Ok true.
Proof.
  assert (verifySignature Sample.runtime (canonicalData Sample.bobBody)
            ("z" +:+ toHex Sample.bobSignature) (bi_publicKey Sample.jpmorgan)
            "Ed25519" = Ok true) as Hgood by (vm_compute; reflexivity).
  split; [reflexivity | split; [reflexivity | split; [exact Hgood | split]]].
  - exact (ed25519_accepts_padded_signature Sample.runtime _ _ "0" _ eq_refl Hgood).
  - exact (ed25519_accepts_padded_signature Sample.runtime _ _ "zz" _ eq_refl Hgood).
Defined.

(** ** Batch issuance *)

Section Batch.
Variable rt : Runtime.
Variable registry : gmap string BankIssuer.
Variable kycDatabase : gmap string CustomerKYCData.

Lemma batchLoop_outcomes (clock : nat -> Readings) (requests : list IssueCredentialRequest) :
  forall (i : nat) good bad,
    batchLoop rt registry kycDatabase clock i requests good bad
    = {| successful :=
           good ++ omap issuedOf
                     (outcomes rt registry kycDatabase (fun j => clock (i + j)%nat)
                        requests);
         failed :=
           bad ++ omap failureOf
                    (outcomes rt registry kycDatabase (fun j => clock (i + j)%nat)
                       requests) |}.
Proof.
  induction requests as [|request rest IH]; intros i good bad.
  - simpl. by rewrite !app_nil_r.
  - unfold outcomes in *. rewrite imap_cons.
    assert (imap ((fun (j : nat) (r : IssueCredentialRequest) =>
                     (r, issueCredential rt registry kycDatabase (clock (i + j)%nat) r))
                  ∘ S) rest
            = imap (fun (j : nat) (r : IssueCredentialRequest) =>
                      (r, issueCredential rt registry kycDatabase
                            (clock (S i + j)%nat) r)) rest) as ->.
    { apply imap_ext. intros j r _. simpl. by rewrite Nat.add_succ_r. }
    simpl batchLoop. rewrite Nat.add_0_r.
    destruct (issueCredential rt registry kycDatabase (clock i) request)
      as [credential|message]; rewrite IH; csimpl; unfold issuedOf, failureOf;
      simpl; by rewrite <- app_assoc.
Qed.

Lemma outcome_in_one_list (o : IssueCredentialRequest * result VerifiableCredential) :
  (exists credential, issuedOf o = Some credential /\ failureOf o = None)
  \/ (exists message, issuedOf o = None /\ failureOf o = Some (o.1, message)).
Proof.
  unfold issuedOf, failureOf. destruct o.2 as [credential|message]; eauto.
Qed.

Lemma outcomes_count (l : list (IssueCredentialRequest * result VerifiableCredential)) :
  (List.length (omap issuedOf l) + List.length (omap failureOf l) = List.length l)%nat.
Proof.
  induction l as [|o l IH]; [done |].
  csimpl. destruct (outcome_in_one_list o) as [(c & -> & ->) | (m & -> & ->)];
    simpl; lia.
Qed.

(** C8. The two lists of [batchIssueCredentials] are the successes and
    the failures of the requests taken one by one in input order, each
    request being issued on its own; every request lands in exactly one
    of the lists; and every credential in [successful] was returned by
    [issueCredential], with a proof value signed over its canonical
    form. *)
Theorem batch_outcomes (clock : nat -> Readings)
    (requests : list IssueCredentialRequest) :
  let result := batchIssueCredentials rt registry kycDatabase clock requests in
  let each := outcomes rt registry kycDatabase clock requests in
  successful result = omap issuedOf each
  /\ failed result = omap failureOf each
  /\ (forall i o, each !! i = Some o ->
        exists request,
          requests !! i = Some request
          /\ o = (request, issueCredential rt registry kycDatabase (clock i) request))
  /\ (List.length (successful result) + List.length (failed result)
      = List.length requests)%nat
  /\ (forall credential, credential ∈ successful result ->
        exists i request issuer,
          requests !! i = Some request
          /\ issueCredential rt registry kycDatabase (clock i) request = Ok credential
          /\ signCredential rt (canonicalData (vc_body credential))
               (bi_privateKey issuer) (signingAlgorithm request issuer)
             = Ok (pf_proofValue (vc_proof credential))).
Proof.
  intros result each.
  assert (successful result = omap issuedOf each
          /\ failed result = omap failureOf each) as [Hgood Hbad].
  { subst result each. unfold batchIssueCredentials.
    rewrite batchLoop_outcomes. simpl. done. }
  assert (forall i o, each !! i = Some o ->
            exists request,
              requests !! i = Some request
              /\ o = (request,
                      issueCredential rt registry kycDatabase (clock i) request))
    as Heach.
  { intros i o Ho. subst each. unfold outcomes in Ho.
    apply list_lookup_imap_Some in Ho as (request & Hreq & ->). by exists request. }
  split; [done | split; [done | split; [done | split]]].
  - rewrite Hgood, Hbad, outcomes_count. subst each. unfold outcomes.
    by rewrite length_imap.
  - intros credential Hin. rewrite Hgood in Hin.
    apply list_elem_of_omap in Hin as (o & Ho & Hissued).
    apply list_elem_of_lookup in Ho as [i Hi].
    destruct (Heach i o Hi) as (request & Hreq & ->).
    unfold issuedOf in Hissued. simpl in Hissued.
    destruct (issueCredential rt registry kycDatabase (clock i) request)
      as [c|m] eqn:Hissue; [| done].
    injection Hissued as ->.
    destruct (issueCredential_Ok rt registry kycDatabase _ _ _ Hissue)
      as (issuer & kycData & _ & _ & _ & _ & _ & _ & _ & Hsign & _).
    by exists i, request, issuer.
Qed.

End Batch.

(** The batch of the test data: the first and the last request succeed,
    the unknown customer and the sanctioned customer are reported, each
    list in input order. *)
Lemma batch_outcomes_sample :
  let result :=
    batchIssueCredentials Sample.runtime Sample.registry Sample.kycDatabase
      Sample.clock Sample.batch in
  map (fun c => vc_issuanceDate (vc_body c)) (successful result)
  = ["2026-11-02T00:00:00.000Z"; "2026-11-02T00:00:00.003Z"]
  /\ map (fun f => (req_customerKycId f.1, f.2)) (failed result)
     = [("KYC-404", "Customer not found: KYC-404");
        ("KYC-900", "Customer has not passed all required KYC checks")].
Proof.
  pose proof (batch_outcomes Sample.runtime Sample.registry Sample.kycDatabase
                Sample.clock Sample.batch) as (Hgood & Hbad & _).
  cbv zeta in *. rewrite Hgood, Hbad.
  split; vm_compute; reflexivity.
Defined.

(** * Further properties *)

(** ** Maps *)

Lemma getProp_mapSet {V} (key k : string) (value : V) (m : list (string * V)) :
  getProp k (mapSet key value m)
  = if String.eqb key k then Some value else getProp k m.
Proof.
  induction m as [|[k0 x] m IH]; simpl.
  - by destruct (String.eqb key k).
  - destruct (String.eqb_spec k0 key) as [->|Hne]; simpl.
    + by destruct (String.eqb key k).
    + rewrite IH. destruct (String.eqb_spec k0 k) as [->|Hne']; [| done].
      by destruct (String.eqb_spec key k) as [->|].
Qed.

Lemma byKey_lookup {V} (m : list (string * V)) (k : string) :
  byKey m !! k = getProp k m.
Proof.
  unfold byKey. induction m as [|[k0 x] m IH]; simpl; [done |].
  destruct (String.eqb_spec k0 k) as [->|Hne].
  - by rewrite lookup_insert_eq.
  - by rewrite lookup_insert_ne.
Qed.

Lemma mapHas_getProp {V} (key : string) (m : list (string * V)) :
  mapHas key m = true <-> exists v, getProp key m = Some v.
Proof.
  unfold mapHas. destruct (getProp key m) as [v|]; split; try done.
  - by exists v.
  - by intros [v ?].
Qed.

Lemma getProp_None_keys {V} (key : string) (m : list (string * V)) :
  getProp key m = None <-> key ∉ objectKeys m.
Proof.
  unfold objectKeys. induction m as [|[k x] m IH]; simpl.
  - split; [intros _ H; by apply elem_of_nil in H | done].
  - rewrite not_elem_of_cons. destruct (String.eqb_spec k key) as [->|Hne].
    + split; [done | by intros [? _]].
    + rewrite IH. split; [by split | by intros [_ ?]].
Qed.

Lemma objectKeys_mapSet {V} (key : string) (value : V) (m : list (string * V)) :
  objectKeys (mapSet key value m)
  = if mapHas key m then objectKeys m else objectKeys m ++ [key].
Proof.
  unfold mapHas, objectKeys. induction m as [|[k x] m IH]; simpl; [done |].
  destruct (String.eqb_spec k key) as [->|Hne]; simpl; [done |].
  rewrite IH. by destruct (getProp key m).
Qed.

(** [set] keeps the keys of a [Map] distinct. *)
Lemma mapSet_NoDup {V} (key : string) (value : V) (m : list (string * V)) :
  NoDup (objectKeys m) -> NoDup (objectKeys (mapSet key value m)).
Proof.
  intros Hnd. rewrite objectKeys_mapSet. unfold mapHas.
  destruct (getProp key m) eqn:Hget; [done |].
  apply NoDup_app. split; [done | split].
  - intros k Hk Hin. apply list_elem_of_singleton in Hin as ->.
    by apply getProp_None_keys in Hget.
  - apply NoDup_singleton.
Qed.



Lemma getProp_mapDelete_ne {V} (key k : string) (m : list (string * V)) :
  k <> key -> getProp k (mapDelete key m).2 = getProp k m.
Proof.
  intros Hne. induction m as [|[k0 x] m IH]; simpl; [done |].
  destruct (String.eqb_spec k0 key) as [->|Hne0]; simpl.
  - by destruct (String.eqb_spec key k) as [->|].
  - by rewrite IH.
Qed.

Lemma getProp_mapDelete_eq {V} (key : string) (m : list (string * V)) :
  NoDup (objectKeys m) -> getProp key (mapDelete key m).2 = None.
Proof.
  unfold objectKeys. induction m as [|[k0 x] m IH]; simpl; [done |].
  intros [Hk Hnd]%NoDup_cons.
  destruct (String.eqb_spec k0 key) as [->|Hne0]; simpl.
  - by apply getProp_None_keys.
  - destruct (String.eqb_spec k0 key); [done | by apply IH].
Qed.

Lemma mapDelete_found {V} (key : string) (m : list (string * V)) :
  (mapDelete key m).1 = mapHas key m.
Proof.
  unfold mapHas. induction m as [|[k0 x] m IH]; simpl; [done |].
  by destruct (String.eqb_spec k0 key).
Qed.

Lemma objectKeys_mapDelete_subset {V} (key k : string) (m : list (string * V)) :
  k ∈ objectKeys (mapDelete key m).2 -> k ∈ objectKeys m.
Proof.
  unfold objectKeys. induction m as [|[k0 x] m IH]; simpl; [done |].
  destruct (String.eqb_spec k0 key) as [->|Hne0]; simpl.
  - by right.
  - intros [->|Hin]%elem_of_cons; [by left | right; by apply IH].
Qed.

Lemma mapDelete_NoDup {V} (key : string) (m : list (string * V)) :
  NoDup (objectKeys m) -> NoDup (objectKeys (mapDelete key m).2).
Proof.
  induction m as [|[k0 x] m IH]; simpl; [done |].
  unfold objectKeys in *. simpl. intros [Hk Hnd]%NoDup_cons.
  destruct (String.eqb_spec k0 key) as [->|Hne0]; simpl; [done |].
  apply NoDup_cons. split; [| by apply IH].
  intros Hin. apply Hk. by apply (objectKeys_mapDelete_subset key).
Qed.

(** ** The issuer registry *)

(** X1. After [registerIssuer], the issuer is found under its DID and is
    reported as registered; every other DID resolves as before. *)
Theorem registerIssuer_lookup (issuer : BankIssuer)
    (registry : list (string * BankIssuer)) (did : string) :
  getIssuerByDid (byKey (registerIssuer issuer registry)) did
  = (if String.eqb (bi_did issuer) did then Some issuer
     else getIssuerByDid (byKey registry) did)
  /\ isIssuerRegistered (registerIssuer issuer registry) did
     = String.eqb (bi_did issuer) did || isIssuerRegistered registry did.
Proof.
  unfold getIssuerByDid, registerIssuer, isIssuerRegistered, mapHas.
  rewrite !byKey_lookup, getProp_mapSet.
  by destruct (String.eqb (bi_did issuer) did).
Qed.

Lemma keyedByDid_mapSet (issuer : BankIssuer) (registry : list (string * BankIssuer)) :
  keyedByDid (byKey registry) ->
  keyedByDid (byKey (mapSet (bi_did issuer) issuer registry)).
Proof.
  intros Hkeyed did found. rewrite byKey_lookup, getProp_mapSet.
  destruct (String.eqb_spec (bi_did issuer) did) as [<-|Hne].
  - by intros [= <-].
  - rewrite <- byKey_lookup. apply Hkeyed.
Qed.

(** X2. Every issuer is filed under its own DID and no DID is filed
    twice: this holds of [ISSUER_REGISTRY] as the module builds it, and
    [registerIssuer] keeps it. *)
Theorem registry_keyed_by_did :
  (keyedByDid (byKey BankIssuers.ISSUER_REGISTRY)
   /\ NoDup (objectKeys BankIssuers.ISSUER_REGISTRY))
  /\ forall issuer registry,
       keyedByDid (byKey registry) /\ NoDup (objectKeys registry) ->
       keyedByDid (byKey (registerIssuer issuer registry))
       /\ NoDup (objectKeys (registerIssuer issuer registry)).
Proof.
  split.
  - split.
    + change BankIssuers.ISSUER_REGISTRY
        with (registerIssuer BankIssuers.DBS_ISSUER
                (registerIssuer BankIssuers.HSBC_ISSUER
                   (registerIssuer BankIssuers.GOLDMAN_SACHS_ISSUER
                      (registerIssuer BankIssuers.JPMORGAN_ISSUER [])))).
      do 4 apply keyedByDid_mapSet. intros did found H.
      by rewrite byKey_lookup in H.
    + apply (bool_decide_unpack _). vm_compute. exact I.
  - intros issuer registry [Hkeyed Hnd]. split.
    + by apply keyedByDid_mapSet.
    + by apply mapSet_NoDup.
Qed.



(** ** The KYC store *)

Lemma keyedByKycId_mapSet (customer : CustomerKYCData)
    (db : list (string * CustomerKYCData)) :
  keyedByKycId db -> keyedByKycId (mapSet (kyc_kycId customer) customer db).
Proof.
  intros [Hkeyed Hnd]. split; [| by apply mapSet_NoDup].
  intros id found. rewrite getProp_mapSet.
  destruct (String.eqb_spec (kyc_kycId customer) id) as [<-|Hne].
  - by intros [= <-].
  - apply Hkeyed.
Qed.

(** X4. The KYC store files every customer under its own id, once: this
    holds after [initializeMockDatabase] on the empty store, and
    [upsertCustomerKYC] and [deleteCustomerKYC] keep it. *)
Theorem kyc_store_keyed_by_id :
  keyedByKycId (initializeMockDatabase [])
  /\ (forall customer db,
        keyedByKycId db -> keyedByKycId (upsertCustomerKYC customer db))
  /\ (forall id db, keyedByKycId db -> keyedByKycId (deleteCustomerKYC id db).2).
Proof.
  split; [| split].
  - change (initializeMockDatabase [])
      with (upsertCustomerKYC MockDatabase.mariaGarcia
              (upsertCustomerKYC MockDatabase.chenWei
                 (upsertCustomerKYC MockDatabase.acme
                    (upsertCustomerKYC MockDatabase.bobSmith
                       (upsertCustomerKYC MockDatabase.alice []))))).
    do 5 apply keyedByKycId_mapSet. split; [done | constructor].
  - intros customer db. apply keyedByKycId_mapSet.
  - intros id db [Hkeyed Hnd]. unfold deleteCustomerKYC. split.
    + intros k found Hget.
      destruct (String.eqb_spec k id) as [->|Hne].
      * by rewrite getProp_mapDelete_eq in Hget.
      * rewrite getProp_mapDelete_ne in Hget by done. by apply Hkeyed.
    + by apply mapDelete_NoDup.
Qed.

(** X5. After [upsertCustomerKYC] the customer is found under its id,
    and every other id resolves as before. *)
Theorem upsertCustomerKYC_lookup (customer : CustomerKYCData)
    (db : list (string * CustomerKYCData)) (id : string) :
  getCustomerKYC (byKey (upsertCustomerKYC customer db)) id
  = if String.eqb (kyc_kycId customer) id then Some customer
    else getCustomerKYC (byKey db) id.
Proof.
  unfold getCustomerKYC, upsertCustomerKYC.
  by rewrite !byKey_lookup, getProp_mapSet.
Qed.

(** X6. [deleteCustomerKYC] answers whether the id was there; afterwards
    the id is not found, and every other id resolves as before. *)
Theorem deleteCustomerKYC_lookup (id : string) (db : list (string * CustomerKYCData)) :
  NoDup (objectKeys db) ->
  (deleteCustomerKYC id db).1
  = (if getCustomerKYC (byKey db) id is Some _ then true else false)
  /\ getCustomerKYC (byKey (deleteCustomerKYC id db).2) id = None
  /\ forall other,
       other <> id ->
       getCustomerKYC (byKey (deleteCustomerKYC id db).2) other
       = getCustomerKYC (byKey db) other.
Proof.
  intros Hnd. unfold getCustomerKYC, deleteCustomerKYC.
  split; [| split].
  - by rewrite mapDelete_found, byKey_lookup.
  - rewrite byKey_lookup. by apply getProp_mapDelete_eq.
  - intros other Hne. rewrite !byKey_lookup. by apply getProp_mapDelete_ne.
Qed.

Lemma deleteCustomerKYC_lookup_witness :
  NoDup (objectKeys (initializeMockDatabase []))
  /\ (deleteCustomerKYC "KYC-003" (initializeMockDatabase [])).1 = true
  /\ (deleteCustomerKYC "KYC-404" (initializeMockDatabase [])).1 = false
  /\ getCustomerKYC (byKey (deleteCustomerKYC "KYC-003" (initializeMockDatabase [])).2)
       "KYC-003" = None
  /\ getAllCustomers (deleteCustomerKYC "KYC-003" (initializeMockDatabase [])).2
     = [MockDatabase.alice; MockDatabase.bobSmith; MockDatabase.chenWei;
        MockDatabase.mariaGarcia].
Proof.
  assert (NoDup (objectKeys (initializeMockDatabase []))) as Hnd
    by (apply (bool_decide_unpack _); vm_compute; exact I).
  split; [exact Hnd |].
  destruct (deleteCustomerKYC_lookup "KYC-003" (initializeMockDatabase []) Hnd)
    as (Hfound & Hgone & _).
  destruct (deleteCustomerKYC_lookup "KYC-404" (initializeMockDatabase []) Hnd)
    as (Hmissing & _).
  split; [rewrite Hfound; vm_compute; reflexivity |].
  split; [rewrite Hmissing; vm_compute; reflexivity |].
  split; [exact Hgone | vm_compute; reflexivity].
Defined.

Lemma getProp_initialize_other (id : string) (customers : list CustomerKYCData)
    (db : list (string * CustomerKYCData)) :
  id ∉ map kyc_kycId customers ->
  getProp id (foldl (fun m c => mapSet (kyc_kycId c) c m) db customers) = getProp id db.
Proof.
  revert db. induction customers as [|c cs IH]; intros db Hid; simpl; [done |].
  simpl in Hid. apply not_elem_of_cons in Hid as [Hne Hid].
  rewrite IH by done. rewrite getProp_mapSet.
  by destruct (String.eqb_spec (kyc_kycId c) id).
Qed.

(** X7. [initializeMockDatabase] puts the five sample customers back as
    they are in the source, whatever the store held under their ids, and
    leaves every other customer as it was. *)
Theorem initializeMockDatabase_lookup (db : list (string * CustomerKYCData)) :
  (forall customer,
     customer ∈ MockDatabase.sampleCustomers ->
     getCustomerKYC (byKey (initializeMockDatabase db)) (kyc_kycId customer)
     = Some customer)
  /\ (forall id,
        id ∉ map kyc_kycId MockDatabase.sampleCustomers ->
        getCustomerKYC (byKey (initializeMockDatabase db)) id
        = getCustomerKYC (byKey db) id).
Proof.
  unfold getCustomerKYC. split.
  - intros customer Hin. rewrite byKey_lookup.
    unfold initializeMockDatabase, MockDatabase.sampleCustomers. simpl foldl.
    rewrite !getProp_mapSet.
    unfold MockDatabase.sampleCustomers in Hin.
    repeat (apply elem_of_cons in Hin as [-> | Hin]; [reflexivity |]).
    by apply elem_of_nil in Hin.
  - intros id Hid. rewrite !byKey_lookup.
    by apply getProp_initialize_other.
Qed.

Lemma matchesCriteria_spec (criteria : SearchCriteria) (customer : CustomerKYCData) :
  matchesCriteria criteria customer = true
  <-> (forall level, truthy (sc_kycLevel criteria) = Some level ->
         kyc_kycLevel customer = level)
      /\ (forall flag, sc_accreditedInvestor criteria = Some flag ->
            kyc_accreditedInvestor customer = flag)
      /\ (forall entity, truthy (sc_entityType criteria) = Some entity ->
            kyc_entityType customer = entity)
      /\ (forall place, truthy (sc_jurisdiction criteria) = Some place ->
            place ∈ kyc_jurisdictions customer).
Proof.
  unfold matchesCriteria.
  destruct (truthy (sc_kycLevel criteria)) as [level|];
    [destruct (String.eqb_spec (kyc_kycLevel customer) level) |];
    destruct (sc_accreditedInvestor criteria) as [flag|];
    try destruct (Bool.eqb_spec (kyc_accreditedInvestor customer) flag);
    destruct (truthy (sc_entityType criteria)) as [entity|];
    try destruct (String.eqb_spec (kyc_entityType customer) entity);
    destruct (truthy (sc_jurisdiction criteria)) as [place|];
    try destruct (decide (place ∈ kyc_jurisdictions customer));
    rewrite ?bool_decide_eq_true_2, ?bool_decide_eq_false_2 by done;
    simpl; split; try done;
    try (intros _; repeat split; intros ? [= <-]; done);
    intros (H1 & H2 & H3 & H4); exfalso; eauto.
Qed.

(** X8. [searchCustomers] returns exactly the stored customers that meet
    every criterion given, a criterion that is left out or is the empty
    string not counting, and returns them in the order of
    [getAllCustomers]. *)
Theorem searchCustomers_spec (db : list (string * CustomerKYCData))
    (criteria : SearchCriteria) :
  (forall customer,
     customer ∈ searchCustomers db criteria
     <-> customer ∈ getAllCustomers db
         /\ (forall level, truthy (sc_kycLevel criteria) = Some level ->
               kyc_kycLevel customer = level)
         /\ (forall flag, sc_accreditedInvestor criteria = Some flag ->
               kyc_accreditedInvestor customer = flag)
         /\ (forall entity, truthy (sc_entityType criteria) = Some entity ->
               kyc_entityType customer = entity)
         /\ (forall place, truthy (sc_jurisdiction criteria) = Some place ->
               place ∈ kyc_jurisdictions customer))
  /\ sublist (searchCustomers db criteria) (getAllCustomers db).
Proof.
  unfold searchCustomers, getAllCustomers. split.
  - intros customer. rewrite <- matchesCriteria_spec.
    rewrite list_elem_of_In, filter_In, <- list_elem_of_In. done.
  - induction (mapValues db) as [|c cs IH]; simpl; [constructor |].
    destruct (matchesCriteria criteria c); by constructor.
Qed.

(** ** What an issued credential says *)

Section Content.
Variable rt : Runtime.
Variable registry : gmap string BankIssuer.
Variable kycDatabase : gmap string CustomerKYCData.

Lemma failsScreening_false (kycData : CustomerKYCData) :
  failsScreening kycData = false ->
  kyc_amlScreening kycData = "passed"
  /\ kyc_sanctionsCheck kycData = "passed"
  /\ kyc_pepScreening kycData = "passed".
Proof.
  unfold failsScreening.
  destruct (String.eqb_spec (kyc_amlScreening kycData) "passed");
    destruct (String.eqb_spec (kyc_sanctionsCheck kycData) "passed");
    destruct (String.eqb_spec (kyc_pepScreening kycData) "passed"); done.
Qed.

(** X9. The subject block of an issued credential: the three screenings
    all read ['passed']; the claims, the verified amount and the tier
    are those of the customer's KYC record; the jurisdictions are those
    of the request; the subject id is the record's [userDid] when it has
    one, and [did:did3:user:] followed by the KYC id otherwise; the
    hashed fields are [hashPII] of the record's fields, without salt. *)
Theorem issued_subject (rd : Readings) (request : IssueCredentialRequest)
    (cred : VerifiableCredential) (kycData : CustomerKYCData) :
  getCustomerKYC kycDatabase (req_customerKycId request) = Some kycData ->
  issueCredential rt registry kycDatabase rd request = Ok cred ->
  let subject := vc_credentialSubject (vc_body cred) in
  (cl_amlScreening (cs_claims subject) = "passed"
   /\ cl_sanctionsCheck (cs_claims subject) = "passed"
   /\ cl_pepScreening (cs_claims subject) = "passed")
  /\ cs_claims subject
     = {| cl_kycLevel := kyc_kycLevel kycData;
          cl_amlScreening := kyc_amlScreening kycData;
          cl_sanctionsCheck := kyc_sanctionsCheck kycData;
          cl_pepScreening := kyc_pepScreening kycData;
          cl_sourceOfFunds := kyc_sourceOfFunds kycData;
          cl_accreditedInvestor := kyc_accreditedInvestor kycData;
          cl_entityType := kyc_entityType kycData |}
  /\ cl_kycLevel (cs_claims subject) = req_kycLevel request
  /\ cl_accreditedInvestor (cs_claims subject) = req_accreditedInvestor request
  /\ cs_amountVerifiedFor subject
     = {| amt_value := kyc_verifiedAmount kycData;
          amt_currency := kyc_currency kycData |}
  /\ cs_tier subject = kyc_tier kycData
  /\ cs_jurisdictions subject = req_jurisdiction request
  /\ cs_id subject
     = orElse (kyc_userDid kycData)
         ("did:did3:user:" +:+ req_customerKycId request)
  /\ cs_hashedPII subject
     = {| pii_name := hashPII rt (kyc_name kycData) None;
          pii_dateOfBirth := hashPII rt (kyc_dateOfBirth kycData) None;
          pii_citizenship := hashPII rt (kyc_citizenship kycData) None;
          pii_address := hashPII rt (kyc_address kycData) None |}.
Proof.
  intros Hrecord Hissue subject.
  invert_issue Hissue issuer found.
  injection Hrecord as ->.
  destruct (failsScreening_false _ Hscreen) as (Haml & Hsanctions & Hpep).
  subst subject. subst cred. simpl.
  rewrite Haml, Hsanctions, Hpep.
  repeat split; done.
Qed.

(** X10. The rest of an issued credential: the issuer block copies the
    issuer record; the id is [generateCredentialId] of the issuer's DID
    and the subject id; the status id is [generateStatusUrl] of that id;
    the revocation marker is null; the proof is created at the issuance
    date, names the issuer's first key, and has the type of the
    algorithm that signed. *)
Theorem issued_envelope (rd : Readings) (request : IssueCredentialRequest)
    (cred : VerifiableCredential) (issuer : BankIssuer) :
  getIssuerByDid registry (req_issuerDid request) = Some issuer ->
  issueCredential rt registry kycDatabase rd request = Ok cred ->
  let body := vc_body cred in
  vc_issuer body
  = {| doc_id := bi_did issuer;
       doc_name := bi_name issuer;
       doc_jurisdiction := Some (bi_jurisdiction issuer);
       doc_regulators := Some (bi_regulators issuer);
       doc_tier := Some (bi_tier issuer) |}
  /\ vc_id body
     = generateCredentialId rt (rd_dateNow rd) (bi_did issuer)
         (cs_id (vc_credentialSubject body))
  /\ vc_credentialStatus body
     = {| st_id := generateStatusUrl (vc_id body);
          st_type := "DID3RevocationRegistry";
          st_registryContract := Some mockContract;
          st_tokenId := Some (numberToString (rd_random rd)) |}
  /\ vc_context body = contextUrls
  /\ vc_type body = credentialTypes
  /\ vc_decommissionedAt body = None
  /\ vc_issuanceDate body = toISOString rt (rd_now rd)
  /\ pf_created (vc_proof cred) = vc_issuanceDate body
  /\ pf_verificationMethod (vc_proof cred) = bi_did issuer +:+ "#key-1"
  /\ pf_proofPurpose (vc_proof cred) = "assertionMethod"
  /\ pf_type (vc_proof cred)
     = (if String.eqb (signingAlgorithm request issuer) "Ed25519"
        then "Ed25519Signature2020" else "EcdsaSecp256k1Signature2019").
Proof.
  intros Hfound Hissue body.
  invert_issue Hissue found kycData.
  injection Hfound as ->.
  subst body. subst cred. simpl. repeat split; done.
Qed.

End Content.

Lemma issued_subject_witness :
  getCustomerKYC Sample.kycDatabase (req_customerKycId (Sample.request "KYC-002"))
  = Some Sample.bob
  /\ Sample.issue (Sample.request "KYC-002") = Ok Sample.bobCredential
  /\ cs_tier (vc_credentialSubject (vc_body Sample.bobCredential)) = 3
  /\ cl_sanctionsCheck (cs_claims (vc_credentialSubject (vc_body Sample.bobCredential)))
     = "passed"
  /\ cs_jurisdictions (vc_credentialSubject (vc_body Sample.bobCredential)) = ["US"].
Proof.
  assert (getCustomerKYC Sample.kycDatabase
            (req_customerKycId (Sample.request "KYC-002")) = Some Sample.bob)
    as Hrecord by (vm_compute; reflexivity).
  pose proof (issued_subject Sample.runtime Sample.registry Sample.kycDatabase
                Sample.readings (Sample.request "KYC-002") Sample.bobCredential
                Sample.bob Hrecord issue_bob)
    as ((_ & Hsanctions & _) & _ & _ & _ & _ & Htier & Hplaces & _).
  split; [exact Hrecord | split; [exact issue_bob |]].
  split; [exact Htier | split; [exact Hsanctions | exact Hplaces]].
Defined.

Lemma issued_envelope_witness :
  getIssuerByDid Sample.registry (req_issuerDid (Sample.request "KYC-002"))
  = Some Sample.jpmorgan
  /\ Sample.issue (Sample.request "KYC-002") = Ok Sample.bobCredential
  /\ doc_name (vc_issuer (vc_body Sample.bobCredential)) = "JPMorgan Chase Bank, N.A."
  /\ pf_type (vc_proof Sample.bobCredential) = "Ed25519Signature2020"
  /\ pf_verificationMethod (vc_proof Sample.bobCredential)
     = "did:did3:bank:jpmorgan#key-1".
Proof.
  assert (getIssuerByDid Sample.registry (req_issuerDid (Sample.request "KYC-002"))
          = Some Sample.jpmorgan) as Hfound by (vm_compute; reflexivity).
  pose proof (issued_envelope Sample.runtime Sample.registry Sample.kycDatabase
                Sample.readings (Sample.request "KYC-002") Sample.bobCredential
                Sample.jpmorgan Hfound issue_bob)
    as (Hdoc & _ & _ & _ & _ & _ & _ & _ & Hmethod & _ & Htype).
  split; [exact Hfound | split; [exact issue_bob |]].
  split; [by rewrite Hdoc | split; [by rewrite Htype | by rewrite Hmethod]].
Defined.

(** ** When issuance fails and when it succeeds *)

Section Conditions.
Variable rt : Runtime.
Variable registry : gmap string BankIssuer.
Variable kycDatabase : gmap string CustomerKYCData.





End Conditions.



(** ** Edge cases of issuance *)

Section IssuanceEdges.
Variable rt : Runtime.
Variable registry : gmap string BankIssuer.
Variable kycDatabase : gmap string CustomerKYCData.


(** X14. The jurisdictions of a request are copied into the credential
    and nothing else is done with them: they are not compared with the
    issuer's or the customer's jurisdictions, an empty list is accepted,
    and they are not part of the signed text.  The same request with
    another list yields the same credential, signature included, with
    that list in it. *)
Theorem jurisdiction_is_unchecked (rd : Readings) (request : IssueCredentialRequest)
    (cred : VerifiableCredential) (places : list string) :
  issueCredential rt registry kycDatabase rd request = Ok cred ->
  issueCredential rt registry kycDatabase rd (withJurisdiction places request)
  = Ok (withSubjectJurisdictions places cred).
Proof.
  intros Hissue. invert_issue Hissue issuer kycData.
  unfold issueCredential. cbn [withJurisdiction req_issuerDid req_customerKycId
    req_kycLevel req_accreditedInvestor req_expiryDays req_signatureAlgorithm
    req_jurisdiction].
  rewrite Hissuer, Hkyc. fold (failsScreening kycData).
  rewrite Hscreen, Hlevel, String.eqb_refl, Hflag, Bool.eqb_reflx. cbn [negb].
  rewrite Hclip. cbn [dateToISOString bind].
  match type of Hsign with
  | signCredential rt (canonicalData ?b1) _ _ = _ =>
      match goal with
      | |- context [signCredential rt (canonicalData ?b2) _ _] =>
          assert (canonicalData b2 = canonicalData b1) as ->
            by (by rewrite !canonicalData_signedText)
      end
  end.
  rewrite Hsign. cbn [bind]. subst cred. reflexivity.
Qed.

End IssuanceEdges.


Lemma jurisdiction_is_unchecked_witness :
  Sample.issue (Sample.request "KYC-002") = Ok Sample.bobCredential
  /\ Sample.issue (withJurisdiction [] (Sample.request "KYC-002"))
     = Ok (withSubjectJurisdictions [] Sample.bobCredential)
  /\ Sample.issue (withJurisdiction ["SG"; "Mars"] (Sample.request "KYC-002"))
     = Ok (withSubjectJurisdictions ["SG"; "Mars"] Sample.bobCredential).
Proof.
  split; [exact issue_bob | split].
  - exact (jurisdiction_is_unchecked Sample.runtime Sample.registry
             Sample.kycDatabase Sample.readings (Sample.request "KYC-002")
             Sample.bobCredential [] issue_bob).
  - exact (jurisdiction_is_unchecked Sample.runtime Sample.registry
             Sample.kycDatabase Sample.readings (Sample.request "KYC-002")
             Sample.bobCredential ["SG"; "Mars"] issue_bob).
Defined.

(** ** More on verification *)

Section VerificationMore.
Variable rt : Runtime.
Variable registry : gmap string BankIssuer.

(** X15. [verifyCredential] answers [valid] exactly when it reports no
    error. *)
Theorem valid_iff_no_errors (now : Z) (c : VerifiableCredential) :
  valid (verifyCredential rt registry now c) = true
  <-> errors (verifyCredential rt registry now c) = [].
Proof.
  destruct (getIssuerByDid registry (doc_id (vc_issuer (vc_body c))))
    as [issuer|] eqn:Hissuer.
  - rewrite (verify_known_issuer rt registry now c issuer Hissuer). cbv zeta.
    simpl valid. simpl errors.
    destruct (verifySignature _ _ _ _ _) as [[|]|message],
      (stateErrors rt now (vc_body c)); simpl; split; done.
  - rewrite (verify_unknown_issuer rt registry now c Hissuer). simpl.
    split; [done |]. by destruct (stateErrors rt now (vc_body c)).
Qed.

(** X16. The answer of [verifyCredential] depends on the credential only
    through the properties that reach the signed text and the proof
    value.  The issuer's name, jurisdictions, regulators and tier, the
    hashed fields, the claims, the amount, the tier and the jurisdictions
    of the subject, the registry contract and the token id, and the type,
    creation date, verification method and purpose of the proof are
    never read. *)
Theorem verification_reads_only (now : Z) (c c' : VerifiableCredential) :
  verifiedFields c = verifiedFields c' ->
  verifyCredential rt registry now c = verifyCredential rt registry now c'.
Proof.
  unfold verifiedFields. intros H.
  injection H as Hctx Hsid Hstype Hsub Hdec Hexp Hid Hiss Hdoc Htype Hproof.
  assert (canonicalData (vc_body c) = canonicalData (vc_body c')) as Htext.
  { rewrite !canonicalData_signedText. unfold signedText.
    by rewrite Hctx, Hsid, Hstype, Hsub, Hdec, Hexp, Hid, Hiss, Hdoc, Htype. }
  unfold verifyCredential. by rewrite Htext, Hexp, Hdec, Hdoc, Hproof.
Qed.

(** A credential that verified, changed so that its text is another one
    while its issuer id and its proof stay, no longer verifies once the
    signature does not carry over to the new text. *)
Lemma changed_text_fails (now later : Z) (c c' : VerifiableCredential) :
  valid (verifyCredential rt registry now c) = true ->
  doc_id (vc_issuer (vc_body c')) = doc_id (vc_issuer (vc_body c)) ->
  pf_proofValue (vc_proof c') = pf_proofValue (vc_proof c) ->
  canonicalData (vc_body c') <> canonicalData (vc_body c) ->
  signatureBoundTo rt registry c (canonicalData (vc_body c')) ->
  valid (verifyCredential rt registry later c') = false
  /\ InvalidSignature ∈ errors (verifyCredential rt registry later c').
Proof.
  intros Hvalid Hdoc Hproof Htext Hbound.
  apply valid_true in Hvalid as (issuer & Hissuer & _ & Hcheck).
  assert (getIssuerByDid registry (doc_id (vc_issuer (vc_body c'))) = Some issuer)
    as Hissuer' by (by rewrite Hdoc).
  rewrite (verify_known_issuer rt registry later c' issuer Hissuer'). cbv zeta.
  rewrite Hproof.
  destruct (verifySignature_answers rt _ _ _ (canonicalData (vc_body c'))
              (pf_proofValue (vc_proof c)) (bi_publicKey issuer) _ _ Hcheck)
    as [answer Hanswer].
  rewrite Hanswer. destruct answer.
  - exfalso. apply Htext. by apply (Hbound issuer).
  - simpl. split; [by rewrite andb_false_r |].
    rewrite elem_of_app. right. by left.
Qed.

End VerificationMore.

(** ** Quoted strings can be read back *)

Lemma readChars_escapeChar (c : ascii) (rest : string) :
  readChars (escapeChar c +:+ rest) = consChar c (readChars rest).
Proof.
  destruct c as [[] [] [] [] [] [] [] []]; reflexivity.
Qed.

Lemma readChars_escapeString (s rest : string) :
  readChars (escapeString s +:+ String dquote rest) = Some (s, rest).
Proof.
  induction s as [|c s IH]; [reflexivity |].
  change (escapeString (String c s)) with (escapeChar c +:+ escapeString s).
  rewrite append_assoc, readChars_escapeChar, IH. reflexivity.
Qed.

(** Two quoted strings followed by any texts are equal only when the
    strings are, and the texts are. *)
Lemma QuoteJSONString_app_inj (s s' rest rest' : string) :
  QuoteJSONString s +:+ rest = QuoteJSONString s' +:+ rest' ->
  s = s' /\ rest = rest'.
Proof.
  unfold QuoteJSONString. rewrite !append_cons, !append_assoc, !append_cons.
  intros [= Heq]. apply (f_equal readChars) in Heq.
  change ("" +:+ rest) with rest in Heq. change ("" +:+ rest') with rest' in Heq.
  rewrite !readChars_escapeString in Heq. by injection Heq.
Qed.

Lemma signedText_subject (b : CredentialBody) :
  signedText b
  = textBeforeSubject b
    +:+ QuoteJSONString (cs_id (vc_credentialSubject b))
    +:+ textAfterSubject b.
Proof.
  unfold signedText, textBeforeSubject, textAfterSubject, textAfterMarker,
    braces, member.
  cbn [joinWith]. rewrite !append_assoc. reflexivity.
Qed.

Lemma signedText_expiration (b : CredentialBody) :
  signedText b
  = textBeforeExpiration b
    +:+ QuoteJSONString (vc_expirationDate b)
    +:+ textAfterExpiration b.
Proof.
  unfold signedText, textBeforeExpiration, textAfterExpiration, textBeforeMarker,
    braces, member.
  cbn [joinWith]. rewrite !append_assoc. reflexivity.
Qed.

Section Tampering.
Variable rt : Runtime.
Variable registry : gmap string BankIssuer.

(** X17. The subject id is under the signature: a credential that
    verified, given another subject id, is rejected with
    ['Invalid signature'] at any later check, as long as the signature
    does not carry over to the new text. *)
Theorem subject_id_is_protected (now later : Z) (c : VerifiableCredential)
    (id : string) :
  valid (verifyCredential rt registry now c) = true ->
  id <> cs_id (vc_credentialSubject (vc_body c)) ->
  signatureBoundTo rt registry c (canonicalData (vc_body (withSubjectId id c))) ->
  valid (verifyCredential rt registry later (withSubjectId id c)) = false
  /\ InvalidSignature ∈ errors (verifyCredential rt registry later (withSubjectId id c)).
Proof.
  intros Hvalid Hid Hbound.
  apply (changed_text_fails rt registry now later c); try done.
  rewrite !canonicalData_signedText, !signedText_subject.
  change (textBeforeSubject (vc_body (withSubjectId id c)))
    with (textBeforeSubject (vc_body c)).
  intros Heq. apply (inj (String.append (textBeforeSubject (vc_body c)))) in Heq.
  apply QuoteJSONString_app_inj in Heq as [Heq _]. by apply Hid.
Qed.

(** X18. The expiration date is under the signature: a credential that
    verified, given another expiration date, is rejected with
    ['Invalid signature'], as long as the signature does not carry over
    to the new text.  An expired credential cannot be brought back by
    moving its date. *)
Theorem expiration_date_is_protected (now later : Z) (c : VerifiableCredential)
    (date : string) :
  valid (verifyCredential rt registry now c) = true ->
  date <> vc_expirationDate (vc_body c) ->
  signatureBoundTo rt registry c (canonicalData (vc_body (withExpirationDate date c))) ->
  valid (verifyCredential rt registry later (withExpirationDate date c)) = false
  /\ InvalidSignature
     ∈ errors (verifyCredential rt registry later (withExpirationDate date c)).
Proof.
  intros Hvalid Hdate Hbound.
  apply (changed_text_fails rt registry now later c); try done.
  rewrite !canonicalData_signedText, !signedText_expiration.
  change (textBeforeExpiration (vc_body (withExpirationDate date c)))
    with (textBeforeExpiration (vc_body c)).
  intros Heq. apply (inj (String.append (textBeforeExpiration (vc_body c)))) in Heq.
  apply QuoteJSONString_app_inj in Heq as [Heq _]. by apply Hdate.
Qed.

End Tampering.

Lemma subject_id_is_protected_witness :
  valid (Sample.verify Sample.t0 Sample.bobCredential) = true
  /\ cs_id (vc_credentialSubject (vc_body Sample.bobCredential))
     = "did:did3:user:0x8f3e4d5c6b7a8901234567890abcdef12345678"
  /\ valid (Sample.verify Sample.t0
              (withSubjectId "did:did3:user:0x01" Sample.bobCredential)) = false
  /\ InvalidSignature
     ∈ errors (Sample.verify Sample.t0
                 (withSubjectId "did:did3:user:0x01" Sample.bobCredential)).
Proof.
  assert (valid (Sample.verify Sample.t0 Sample.bobCredential) = true) as Hvalid
    by (vm_compute; reflexivity).
  split; [exact Hvalid | split; [vm_compute; reflexivity |]].
  apply (subject_id_is_protected Sample.runtime Sample.registry Sample.t0 Sample.t0
           Sample.bobCredential "did:did3:user:0x01" Hvalid).
  - vm_compute. discriminate.
  - exact (sample_bob_binds _).
Defined.

Lemma expiration_date_is_protected_witness :
  valid (Sample.verify Sample.t0 Sample.bobCredential) = true
  /\ valid (Sample.verify Sample.t0
              (withExpirationDate "2099-01-01T00:00:00.000Z" Sample.bobCredential))
     = false
  /\ InvalidSignature
     ∈ errors (Sample.verify Sample.t0
                 (withExpirationDate "2099-01-01T00:00:00.000Z" Sample.bobCredential)).
Proof.
  assert (valid (Sample.verify Sample.t0 Sample.bobCredential) = true) as Hvalid
    by (vm_compute; reflexivity).
  split; [exact Hvalid |].
  apply (expiration_date_is_protected Sample.runtime Sample.registry Sample.t0
           Sample.t0 Sample.bobCredential "2099-01-01T00:00:00.000Z" Hvalid).
  - vm_compute. discriminate.
  - exact (sample_bob_binds _).
Defined.

(** ** More on revocation *)

Section RevocationMore.
Variable rt : Runtime.
Variable registry : gmap string BankIssuer.

(** X19. A revoked copy is never valid: whatever the credential, its
    signature, the registry and the two dates, [verifyCredential] answers
    [valid = false] on the result of [revokeCredential] and lists
    ['Credential has been decommissioned'].  Revoking a copy again only
    replaces the stamp: the first stamp is lost, and everything else is
    as after the first revocation. *)
Theorem revoked_copy_is_never_valid (stamp now : Z) (c : VerifiableCredential) :
  valid (verifyCredential rt registry now (revokeCredential rt stamp c)) = false
  /\ Revoked ∈ errors (verifyCredential rt registry now (revokeCredential rt stamp c))
  /\ (forall again,
        revokeCredential rt again (revokeCredential rt stamp c)
        = revokeCredential rt again c).
Proof.
  split; [| split; [| done]].
  - destruct (valid (verifyCredential rt registry now (revokeCredential rt stamp c)))
      eqn:Hvalid; [| done].
    apply valid_true in Hvalid as (issuer & _ & Hstate & _).
    unfold stateErrors in Hstate. simpl in Hstate.
    by destruct (laterThan _ _).
  - assert (Revoked ∈ stateErrors rt now (vc_body (revokeCredential rt stamp c)))
      as Hin.
    { unfold stateErrors. simpl. rewrite elem_of_app. right. by left. }
    destruct (getIssuerByDid registry
                (doc_id (vc_issuer (vc_body (revokeCredential rt stamp c)))))
      as [issuer|] eqn:Hissuer.
    + rewrite (verify_known_issuer rt registry now _ issuer Hissuer). cbv zeta.
      simpl errors. rewrite elem_of_app. by left.
    + rewrite (verify_unknown_issuer rt registry now _ Hissuer). simpl errors.
      rewrite elem_of_app. by left.
Qed.

End RevocationMore.

(** ** More on batches *)

Section BatchMore.
Variable rt : Runtime.
Variable registry : gmap string BankIssuer.
Variable kycDatabase : gmap string CustomerKYCData.

Lemma outcomes_app (clock : nat -> Readings) (first rest : list IssueCredentialRequest) :
  outcomes rt registry kycDatabase clock (first ++ rest)
  = outcomes rt registry kycDatabase clock first
    ++ outcomes rt registry kycDatabase (laterClock (List.length first) clock) rest.
Proof.
  unfold outcomes, laterClock. by rewrite imap_app.
Qed.

Lemma batch_lists (clock : nat -> Readings) (requests : list IssueCredentialRequest) :
  batchIssueCredentials rt registry kycDatabase clock requests
  = {| successful := omap issuedOf (outcomes rt registry kycDatabase clock requests);
       failed := omap failureOf (outcomes rt registry kycDatabase clock requests) |}.
Proof.
  unfold batchIssueCredentials. rewrite batchLoop_outcomes. reflexivity.
Qed.

(** X20. A batch can be cut anywhere: the result for [first ++ rest] is
    the result for [first] followed, list by list, by the result for
    [rest] run on the clock readings that follow.  No request changes
    the outcome of another one. *)
Theorem batch_of_append (clock : nat -> Readings)
    (first rest : list IssueCredentialRequest) :
  let whole := batchIssueCredentials rt registry kycDatabase clock (first ++ rest) in
  let head := batchIssueCredentials rt registry kycDatabase clock first in
  let tail := batchIssueCredentials rt registry kycDatabase
                (laterClock (List.length first) clock) rest in
  successful whole = successful head ++ successful tail
  /\ failed whole = failed head ++ failed tail.
Proof.
  cbv zeta. rewrite !batch_lists, outcomes_app. simpl.
  by rewrite !omap_app.
Qed.

End BatchMore.

(** ** More on utils/crypto.ts *)

Section CryptoMore.
Variable rt : Runtime.


(** X22. The salt of [hashPII] is joined to the value with a colon and
    nothing else: an empty salt is no salt, a salted hash is the unsalted
    hash of [value:salt], and a colon can move between the value and the
    salt without changing the hash. *)
Theorem hashPII_salt (value : string) :
  hashPII rt value (Some "") = hashPII rt value None
  /\ (forall salt, salt <> "" ->
        hashPII rt value (Some salt) = hashPII rt (value +:+ ":" +:+ salt) None)
  /\ (forall salt more, salt <> "" -> more <> "" ->
        hashPII rt (value +:+ ":" +:+ salt) (Some more)
        = hashPII rt value (Some (salt +:+ ":" +:+ more))).
Proof.
  unfold hashPII. split; [done | split].
  - intros salt Hsalt. by destruct (String.eqb_spec salt "").
  - intros salt more Hsalt Hmore.
    destruct (String.eqb_spec more ""); [done |].
    destruct (String.eqb_spec (salt +:+ ":" +:+ more) "") as [Hempty|_].
    + destruct salt; [done | discriminate Hempty].
    + by rewrite !append_assoc.
Qed.

Lemma lastSegmentFrom_plain (sep : ascii) (s : string) :
  occursIn sep s = false ->
  forall acc, lastSegmentFrom sep acc s = acc +:+ s.
Proof.
  induction s as [|c s IH]; intros Hnone acc.
  - by rewrite append_empty_r.
  - simpl in Hnone. apply orb_false_iff in Hnone as [Hc Hs].
    simpl. rewrite Hc, (IH Hs), append_assoc. reflexivity.
Qed.

Lemma lastSegmentFrom_after (sep : ascii) (before s : string) :
  occursIn sep s = false ->
  forall acc, lastSegmentFrom sep acc (before +:+ String sep s) = s.
Proof.
  intros Hnone. induction before as [|c before IH]; intros acc.
  - change ("" +:+ String sep s) with (String sep s). simpl.
    rewrite Ascii.eqb_refl. by rewrite (lastSegmentFrom_plain sep s Hnone).
  - rewrite append_cons. simpl. destruct (Ascii.eqb c sep); apply IH.
Qed.

(** X23. The status URL of a generated credential id ends with the same
    sixteen characters of the hash as the id, when these hold no colon
    (hex digits do not): the two are tied by the hash prefix alone. *)
Theorem status_url_of_generated_id (dateNow : Z) (issuerDid subjectId : string) :
  let digest :=
    sha256Hash rt (issuerDid +:+ ":" +:+ subjectId +:+ ":" +:+ numberToString dateNow) in
  occursIn ":" (String.substring 0 16 digest) = false ->
  generateCredentialId rt dateNow issuerDid subjectId
  = "did:did3:credential:" +:+ String.substring 0 16 digest
  /\ generateStatusUrl (generateCredentialId rt dateNow issuerDid subjectId)
     = "https://did3.org/credentials/status/" +:+ String.substring 0 16 digest.
Proof.
  cbv zeta. intros Hnone. split; [reflexivity |].
  unfold generateStatusUrl, generateCredentialId, lastSegment. cbv zeta.
  change ("did:did3:credential:" +:+ ?h)
    with ("did:did3:credential" +:+ String ":" h).
  rewrite (lastSegmentFrom_after ":" _ _ Hnone). unfold orElse.
  by destruct (String.eqb_spec (String.substring 0 16
                 (sha256Hash rt (issuerDid +:+ ":" +:+ subjectId +:+ ":"
                                 +:+ numberToString dateNow))) "") as [->|].
Qed.

End CryptoMore.


Lemma status_url_of_generated_id_witness :
  generateCredentialId Sample.runtime 7 "a" "b" = "did:did3:credential:613a623a37"
  /\ generateStatusUrl (generateCredentialId Sample.runtime 7 "a" "b")
     = "https://did3.org/credentials/status/613a623a37".
Proof.
  apply (status_url_of_generated_id Sample.runtime 7 "a" "b"). reflexivity.
Defined.

(** ** The routes *)

Section Routes.
Variable rt : Runtime.
Variable registry : gmap string BankIssuer.
Variable kycDatabase : gmap string CustomerKYCData.

Lemma truthy_Some (o : option string) (s : string) :
  truthy o = Some s <-> o = Some s /\ s <> "".
Proof.
  unfold truthy. destruct o as [t|]; [| by split; [| intros []]].
  destruct (String.eqb_spec t "") as [->|Hne].
  - split; [done | by intros [[= ->] ?]].
  - split; [by intros [= ->] | by intros [[= ->] _]].
Qed.


(** X25. The two issuing routes disagree on an empty jurisdiction list.
    For a request that [issueCredential] accepts and whose jurisdiction
    list is empty, POST /credentials/issue answers 400 with
    ['Missing required field: jurisdiction'], and POST
    /credentials/batch-issue, given the same request alone, answers 200
    with the credential. *)
Theorem routes_disagree_on_empty_jurisdiction (clock : nat -> Readings)
    (request : IssueCredentialRequest) (cred : VerifiableCredential) :
  req_customerKycId request <> "" ->
  req_issuerDid request <> "" ->
  req_kycLevel request <> "" ->
  req_jurisdiction request = [] ->
  issueCredential rt registry kycDatabase (clock 0%nat) request = Ok cred ->
  postCredentialsIssue rt registry kycDatabase (clock 0%nat) (bodyOf request)
  = {| statusCode := 400;
       reply := ErrorReply "Missing required field: jurisdiction" |}
  /\ postCredentialsBatchIssue rt registry kycDatabase clock (Some [request])
     = {| statusCode := 200;
          reply := BatchReply true 1 1 0 [cred] [] |}.
Proof.
  intros Hid Hdid Hlevel Hplaces Hissue. split.
  - unfold postCredentialsIssue, bodyOf.
    cbn [ib_customerKycId ib_issuerDid ib_kycLevel ib_accreditedInvestor
         ib_jurisdiction].
    rewrite (proj2 (truthy_Some _ _) (conj eq_refl Hid)),
      (proj2 (truthy_Some _ _) (conj eq_refl Hdid)),
      (proj2 (truthy_Some _ _) (conj eq_refl Hlevel)), Hplaces.
    reflexivity.
  - unfold postCredentialsBatchIssue, batchIssueCredentials. simpl.
    by rewrite Hissue.
Qed.

(** X26. POST /credentials/batch-issue answers 400 without an array or
    on an empty one, and otherwise 200 with [success: true] whatever the
    requests come to: the two counts add up to [totalRequests], and when
    every request is rejected the reply still is 200 and [success: true],
    with no credential and one error per request. *)
Theorem post_batch_reply (clock : nat -> Readings)
    (requests : option (list IssueCredentialRequest)) :
  let response := postCredentialsBatchIssue rt registry kycDatabase clock requests in
  ((requests = None \/ requests = Some []) ->
   response
   = {| statusCode := 400;
        reply := ErrorReply "Invalid request: expected array of credential requests" |})
  /\ (forall list, requests = Some list -> list <> [] ->
      exists good bad,
        response
        = {| statusCode := 200;
             reply := BatchReply true (List.length list) (List.length good)
                        (List.length bad) good bad |}
        /\ good = successful (batchIssueCredentials rt registry kycDatabase clock list)
        /\ bad = failed (batchIssueCredentials rt registry kycDatabase clock list)
        /\ (List.length good + List.length bad = List.length list)%nat
        /\ ((forall i request, list !! i = Some request ->
               exists message,
                 issueCredential rt registry kycDatabase (clock i) request
                 = Throw message) ->
            good = [] /\ List.length bad = List.length list)).
Proof.
  cbv zeta. split.
  - by intros [-> | ->].
  - intros list -> Hlist. destruct list as [|request rest]; [done |].
    eexists _, _. split; [reflexivity |]. split; [done |]. split; [done |].
    rewrite batch_lists. cbn [successful failed].
    pose proof (outcomes_count
                  (outcomes rt registry kycDatabase clock (request :: rest))) as Hcount.
    unfold outcomes at 3 in Hcount. rewrite length_imap in Hcount.
    split; [exact Hcount |]. intros Hall.
    assert (omap issuedOf (outcomes rt registry kycDatabase clock (request :: rest))
            = []) as Hnone.
    { destruct (omap issuedOf _) as [|credential others] eqn:Hgood; [done |].
      assert (credential ∈ omap issuedOf
                (outcomes rt registry kycDatabase clock (request :: rest))) as Hin
        by (rewrite Hgood; by left).
      apply list_elem_of_omap in Hin as (o & Ho & Hissued).
      apply list_elem_of_lookup in Ho as [i Hi]. unfold outcomes in Hi.
      rewrite list_lookup_imap in Hi.
      destruct ((request :: rest) !! i) as [r|] eqn:Hr; [| done].
      simpl in Hi. injection Hi as <-.
      destruct (Hall i r Hr) as [message Hthrown].
      unfold issuedOf in Hissued. simpl in Hissued. by rewrite Hthrown in Hissued. }
    split; [exact Hnone |]. rewrite Hnone in Hcount. exact Hcount.
Qed.

End Routes.

Lemma routes_disagree_on_empty_jurisdiction_witness :
  Sample.issue (withJurisdiction [] (Sample.request "KYC-002"))
  = Ok (withSubjectJurisdictions [] Sample.bobCredential)
  /\ postCredentialsIssue Sample.runtime Sample.registry Sample.kycDatabase
       Sample.readings (bodyOf (withJurisdiction [] (Sample.request "KYC-002")))
     = {| statusCode := 400;
          reply := ErrorReply "Missing required field: jurisdiction" |}
  /\ postCredentialsBatchIssue Sample.runtime Sample.registry Sample.kycDatabase
       (fun _ => Sample.readings)
       (Some [withJurisdiction [] (Sample.request "KYC-002")])
     = {| statusCode := 200;
          reply := BatchReply true 1 1 0
                     [withSubjectJurisdictions [] Sample.bobCredential] [] |}.
Proof.
  assert (Sample.issue (withJurisdiction [] (Sample.request "KYC-002"))
          = Ok (withSubjectJurisdictions [] Sample.bobCredential)) as Hissue
    by (vm_compute; reflexivity).
  split; [exact Hissue |].
  apply (routes_disagree_on_empty_jurisdiction Sample.runtime Sample.registry
           Sample.kycDatabase (fun _ => Sample.readings)
           (withJurisdiction [] (Sample.request "KYC-002"))
           (withSubjectJurisdictions [] Sample.bobCredential));
    [vm_compute; discriminate | vm_compute; discriminate | vm_compute; discriminate
    | reflexivity | exact Hissue].
Defined.

Lemma verification_reads_only_witness :
  verifiedFields Sample.bobCredential
  = verifiedFields (withSubjectJurisdictions ["XX"] Sample.bobCredential)
  /\ Sample.verify Sample.t0 Sample.bobCredential
     = Sample.verify Sample.t0 (withSubjectJurisdictions ["XX"] Sample.bobCredential).
Proof.
  split; [reflexivity |].
  apply (verification_reads_only Sample.runtime Sample.registry Sample.t0
           Sample.bobCredential (withSubjectJurisdictions ["XX"] Sample.bobCredential)).
  reflexivity.
Defined.
